(** * The FastAPI gateway of Bitcoin Sprint: authentication, tiered rate
      limiting and proxy forwarding

    A shallow embedding of [Bitcoin_Sprint_fastapi/fastapi-gateway/main.py].
    Python dictionaries are finite maps, exceptions are an error type, and the
    process-wide objects the handlers mutate (the Redis keyspace, the
    Prometheus counters, the [backend_status] global) are fields of an
    explicit state that every handler threads through.  The network is a
    parameter of the model, and every call the gateway issues is appended to a
    log kept in the state.

    The model covers the functions of the module: the authentication
    dependency, the proxy, the catch-all handler and the health functions.
    Header dictionaries are as [dict(request.headers)] and
    [dict(response.headers)] deliver them, keyed by lower-case names.  Token
    issuing, the startup of the process and the WebSocket proxy (whose relay
    loop is empty in the code) follow.  The ASGI middleware stack (CORS,
    trusted hosts, slowapi) and the logger are outside the model. *)

From Stdlib Require Import ZArith Ascii String List Lia.
From stdpp Require Import base option strings gmap list pretty.

Open Scope Z_scope.

(** ** Python values and exceptions *)

Module Py.

(** [str.lower] on ASCII text. *)
Definition lower_ascii (c : ascii) : ascii :=
  let n := nat_of_ascii c in
  if (Nat.leb 65 n && Nat.leb n 90)%bool then ascii_of_nat (n + 32) else c.

Fixpoint lower (s : string) : string :=
  match s with
  | EmptyString => EmptyString
  | String c s' => String (lower_ascii c) (lower s')
  end.

(** [s.split(sep)] for a one-character separator. *)
Fixpoint split (sep : ascii) (s : string) : list string :=
  match s with
  | EmptyString => [EmptyString]
  | String c s' =>
      if Ascii.eqb c sep then EmptyString :: split sep s'
      else match split sep s' with
           | w :: ws => String c w :: ws
           | [] => [String c EmptyString]
           end
  end.

Definition startswith (s p : string) : bool := String.prefix p s.

(** Truth value of a [str]: the empty string is falsy. *)
Definition truthy (s : string) : bool := negb (String.eqb s EmptyString).

(** Truth value of an [Optional[str]]. *)
Definition truthy_opt (o : option string) : bool :=
  match o with Some s => truthy s | None => false end.

(** [str(n)] for an [int]. *)
Definition str (n : Z) : string := pretty n.

End Py.

(** Exceptions the gateway raises or meets.  [OtherException] stands for
    every exception class that is neither an [HTTPException] nor a
    [JWTError]; its argument names the class. *)
Inductive exn :=
| HTTPException (status_code : Z) (detail : string)
| JWTError
| OtherException (class : string).

Inductive result (A : Type) :=
| Ok (a : A)
| Raise (e : exn).
Arguments Ok {A} a.
Arguments Raise {A} e.

Definition bind {A B} (r : result A) (k : A -> result B) : result B :=
  match r with
  | Ok a => k a
  | Raise e => Raise e
  end.

Notation "'let*' x ':=' r 'in' k" := (bind r (fun x => k))
  (at level 10, x name, r at level 100, k at level 200).

(** ** Configuration ([Settings]) *)

Module settings.
Definition backend_url : string := "http://localhost:8080".
Definition backend_timeout : Z := 30.
Definition api_key_header : string := "X-API-Key".
Definition api_key_query : string := "api_key".
Definition api_version : string := "1.0.0".
End settings.

(** ** Data model *)

Record User := {
  username : string;
  email : option string;
  full_name : option string;
  disabled : option bool;
  tier : string
}.

(** [User(username=.., tier=..)]: the remaining fields take their defaults. *)
Definition mkUser (name : string) (email : option string) (t : string) : User :=
  {| username := name; email := email; full_name := None;
     disabled := None; tier := t |}.

(** A [datetime]: naive, as [datetime.utcnow()] returns it and as pydantic
    reads a timestamp without offset, or timezone-aware, as pydantic reads a
    timestamp with an offset or a trailing Z.  Python orders two naive values
    and raises [TypeError] when a naive value is compared with an aware one. *)
Inductive datetime :=
| Naive (t : Z)
| Aware (t : Z).

Record APIKey := {
  key : string;
  name : string;
  created_at : Z;
  expires_at : option datetime;
  key_tier : string;
  rate_limit : Z;
  enabled : bool
}.

Record Request := {
  method : string;
  req_headers : gmap string string;
  query_params : gmap string string;
  body : string
}.

Record Response := {
  content : string;
  status_code : Z;
  headers : gmap string string
}.

(** The arguments of [client.request(...)], and the timeout, in seconds, of
    the client the request is issued on. *)
Record BackendCall := {
  call_method : string;
  call_url : string;
  call_headers : gmap string string;
  call_content : string;
  call_params : gmap string string;
  call_timeout : Z
}.

(** What [await client.request(...)] does: it returns a response, raises
    [httpx.TimeoutException], raises another [httpx.RequestError]
    (connection refused, DNS or TLS failure), or raises something else. *)
Inductive backend_outcome :=
| Responded (r : Response)
| TimeoutException
| RequestError
| ClientCrash.

(** What [await client.get(".../health")] does in [check_backend_health]. *)
Inductive probe_outcome :=
| ProbeStatus (code : Z)
| ProbeException.

(** One entry of the log of network calls issued by the gateway process. *)
Inductive NetCall :=
| CallBackend (c : BackendCall)
| CallHealth (url : string).

(** ** The credential store (Redis)

    A key holds a value and, optionally, the clock reading at which it
    expires.  Values are classified by what the gateway's decoders make of
    the stored bytes: an integer (what [INCR] writes), a JSON document that
    [json.loads] and the [APIKey] constructor accept, or any other string. *)
Inductive redis_value :=
| RInt (n : Z)
| RRecord (r : APIKey)
| RRaw (s : string).

Record Redis := {
  reachable : bool;
  kv : gmap string (redis_value * option Z)
}.

Definition live (now : Z) (e : redis_value * option Z) : bool :=
  match e.2 with
  | None => true
  | Some deadline => now <? deadline
  end.

Definition redis_lookup (now : Z) (k : string) (r : Redis)
  : option (redis_value * option Z) :=
  match kv r !! k with
  | Some e => if live now e then Some e else None
  | None => None
  end.

Definition redis_error : exn := OtherException "redis.RedisError".

(** [GET k] *)
Definition redis_get (now : Z) (k : string) (r : Redis)
  : result (option redis_value) :=
  if reachable r then Ok (fst <$> redis_lookup now k r) else Raise redis_error.

Definition int64_max : Z := 9223372036854775807.

(** [INCR k]: a missing or expired key counts from zero and carries no
    expiry; a live key keeps its expiry. *)
Definition redis_incr (now : Z) (k : string) (r : Redis) : Redis * result Z :=
  if reachable r then
    match redis_lookup now k r with
    | None =>
        ({| reachable := true; kv := <[k := (RInt 1, None)]> (kv r) |}, Ok 1)
    | Some (RInt n, d) =>
        if n <? int64_max then
          ({| reachable := true; kv := <[k := (RInt (n + 1), d)]> (kv r) |},
           Ok (n + 1))
        else (r, Raise redis_error)
    | Some (_, _) => (r, Raise redis_error)
    end
  else (r, Raise redis_error).

(** [EXPIRE k secs] *)
Definition redis_expire (now : Z) (k : string) (secs : Z) (r : Redis)
  : Redis * result bool :=
  if reachable r then
    match redis_lookup now k r with
    | None => (r, Ok false)
    | Some (v, _) =>
        ({| reachable := true; kv := <[k := (v, Some (now + secs))]> (kv r) |},
         Ok true)
    end
  else (r, Raise redis_error).

(** ** Process state *)

Record State := {
  redis_client : option Redis;
  backend_status : string;
  REQUEST_COUNT : gmap (string * string * string) nat;
  REQUEST_LATENCY : list (string * string);
  net_log : list NetCall
}.

Definition set_redis (r : Redis) (st : State) : State :=
  {| redis_client := Some r; backend_status := backend_status st;
     REQUEST_COUNT := REQUEST_COUNT st; REQUEST_LATENCY := REQUEST_LATENCY st;
     net_log := net_log st |}.

Definition set_backend_status (s : string) (st : State) : State :=
  {| redis_client := redis_client st; backend_status := s;
     REQUEST_COUNT := REQUEST_COUNT st; REQUEST_LATENCY := REQUEST_LATENCY st;
     net_log := net_log st |}.

Definition log_call (c : NetCall) (st : State) : State :=
  {| redis_client := redis_client st; backend_status := backend_status st;
     REQUEST_COUNT := REQUEST_COUNT st; REQUEST_LATENCY := REQUEST_LATENCY st;
     net_log := net_log st ++ [c] |}.

(** [REQUEST_COUNT.labels(method=.., endpoint=.., status=..).inc()] *)
Definition count_request (m e s : string) (st : State) : State :=
  {| redis_client := redis_client st; backend_status := backend_status st;
     REQUEST_COUNT :=
       <[(m, e, s) := S (default 0%nat (REQUEST_COUNT st !! (m, e, s)))]>
         (REQUEST_COUNT st);
     REQUEST_LATENCY := REQUEST_LATENCY st;
     net_log := net_log st |}.

(** [REQUEST_LATENCY.labels(method=.., endpoint=..).observe(duration)]; the
    observed duration is a float and is not kept. *)
Definition observe_latency (m e : string) (st : State) : State :=
  {| redis_client := redis_client st; backend_status := backend_status st;
     REQUEST_COUNT := REQUEST_COUNT st;
     REQUEST_LATENCY := REQUEST_LATENCY st ++ [(m, e)];
     net_log := net_log st |}.

(** The value of the counter with the given labels. *)
Definition counted (m e s : string) (st : State) : nat :=
  default 0%nat (REQUEST_COUNT st !! (m, e, s)).

(** The backend calls among the logged network calls. *)
Definition backend_calls (st : State) : list BackendCall :=
  omap (fun c => match c with CallBackend b => Some b | CallHealth _ => None end)
       (net_log st).

(** ** Token claims *)

Inductive json :=
| JNull
| JBool (b : bool)
| JNum (n : Z)
| JStr (s : string).

(** ** The gateway

    The parameters are the parts of the world the gateway talks to; each is
    indexed by the clock reading at which it is consulted.
    - [jwt_decode now token] is [jwt.decode(token, settings.secret_key,
      algorithms=[settings.algorithm])]: the decoded claims, or [None] when
      the library raises [JWTError] (bad signature, expired, malformed);
    - [urljoin] is [urllib.parse.urljoin] where it returns, and
      [urljoin_raises base path] tells where it raises [ValueError] instead
      (a path that opens a bracketed host and does not close it);
    - [body_raises now request] tells whether [await request.body()] raises
      (the client went away); [body request] is the body when it returns;
    - [backend now call] is the outcome of [client.request(...)] on a client
      made with [timeout=settings.backend_timeout];
    - [probe now] is the outcome of the health probe [client.get(...)]. *)

Section Gateway.

Variable jwt_decode : Z -> string -> option (gmap string json).
Variable urljoin : string -> string -> string.
Variable urljoin_raises : string -> string -> bool.
Variable body_raises : Z -> Request -> bool.
Variable backend : Z -> BackendCall -> backend_outcome.
Variable probe : Z -> probe_outcome.

(** *** Authentication functions *)

Definition credentials_exception : exn :=
  HTTPException 401 "Could not validate credentials".

(** The [try] block of [get_current_user]. *)
Definition get_current_user_try (now : Z) (token : string) : result string :=
  let* payload :=
    match jwt_decode now token with
    | Some p => Ok p
    | None => Raise JWTError
    end in
  match payload !! "sub" with
  | None | Some JNull => Raise credentials_exception
  | Some (JStr username) => Ok username
  | Some _ => Raise (OtherException "pydantic.ValidationError")
  end.

Definition get_current_user (now : Z) (token : string) : result User :=
  let* username :=
    match get_current_user_try now token with
    | Raise JWTError => Raise credentials_exception
    | r => r
    end in
  Ok (mkUser username (Some (username +:+ "@example.com")) "pro").

Definition get_api_key_from_header (request : Request) : option string :=
  let api_key := req_headers request !! Py.lower settings.api_key_header in
  if negb (Py.truthy_opt api_key)
  then query_params request !! settings.api_key_query
  else api_key.

(** [validate_api_key]: every exception of the lookup is logged and
    swallowed. *)
Definition validate_api_key (now : Z) (client : option Redis)
    (api_key : string) : option APIKey :=
  match client with
  | None => None
  | Some r =>
      match redis_get now ("api_key:" +:+ api_key) r with
      | Ok (Some (RRecord data)) => Some data
      | Ok (Some (RInt _)) | Ok (Some (RRaw _)) => None
      | Ok None => None
      | Raise _ => None
      end
  end.

(** The [try] block under "Fallback to JWT authentication". *)
Definition jwt_fallback_try (now : Z) (request : Request)
  : result (option User) :=
  match req_headers request !! "authorization" with
  | Some auth_header =>
      if Py.truthy auth_header && Py.startswith auth_header "Bearer " then
        let* token :=
          match Py.split " " auth_header !! 1%nat with
          | Some t => Ok t
          | None => Raise (OtherException "IndexError")
          end in
        let* user := get_current_user now token in
        Ok (Some user)
      else Ok None
  | None => Ok None
  end.

(** The [try] block with its [except Exception: pass], followed by
    [return None]. *)
Definition jwt_fallback (now : Z) (request : Request) : result (option User) :=
  match jwt_fallback_try now request with
  | Ok (Some user) => Ok (Some user)
  | Ok None => Ok None
  | Raise _ => Ok None
  end.

Definition authenticate_request (now : Z) (client : option Redis)
    (request : Request) : result (option User) :=
  match get_api_key_from_header request with
  | Some api_key =>
      if Py.truthy api_key then
        match validate_api_key now client api_key with
        | Some key_info =>
            if enabled key_info then
              match expires_at key_info with
              | Some (Naive e) =>
                  if e <? now
                  then Raise (HTTPException 401 "API key expired")
                  else Ok (Some (mkUser ("api_key_" +:+ name key_info) None
                                        (key_tier key_info)))
              | Some (Aware _) => Raise (OtherException "TypeError")
              | None =>
                  Ok (Some (mkUser ("api_key_" +:+ name key_info) None
                                   (key_tier key_info)))
              end
            else jwt_fallback now request
        | None => jwt_fallback now request
        end
      else jwt_fallback now request
  | None => jwt_fallback now request
  end.

(** *** Backend proxy functions *)

Definition hop_by_hop_headers : list string :=
  ["connection"; "keep-alive"; "proxy-authenticate"; "proxy-authorization";
   "te"; "trailers"; "transfer-encoding"; "upgrade"].

(** [for header in hop_by_hop_headers: headers.pop(header, None)] *)
Definition pop_hop_by_hop (h : gmap string string) : gmap string string :=
  foldl (fun acc header => delete header acc) h hop_by_hop_headers.

(** The [headers] dictionary handed to [client.request]. *)
Definition outbound_headers (request : Request) (user : option User)
  : gmap string string :=
  let headers := pop_hop_by_hop (req_headers request) in
  match user with
  | Some u =>
      <["X-User-Username" := username u]> (<["X-User-Tier" := tier u]> headers)
  | None => headers
  end.

(** The arguments [proxy_request] passes to [client.request]. *)
Definition backend_call (method_ path : string) (request : Request)
    (user : option User) : BackendCall :=
  let backend_url := urljoin settings.backend_url path in
  {| call_method := method_; call_url := backend_url;
     call_headers := outbound_headers request user;
     call_content := body request;
     call_params := query_params request;
     call_timeout := settings.backend_timeout |}.

(** [urljoin] and [request.body()] run before the [try] block: what they
    raise leaves [proxy_request] as it is, and no call has been issued. *)
Definition proxy_request (now : Z) (method_ path : string)
    (request : Request) (user : option User) (st : State)
  : State * result Response :=
  if urljoin_raises settings.backend_url path then
    (st, Raise (OtherException "ValueError"))
  else if body_raises now request then
    (st, Raise (OtherException "ClientDisconnect"))
  else
  let call := backend_call method_ path request user in
  let st := log_call (CallBackend call) st in
  match backend now call with
  | Responded response =>
      (st, Ok {| content := content response;
                 status_code := status_code response;
                 headers := pop_hop_by_hop (headers response) |})
  | TimeoutException =>
      (st, Raise (HTTPException 504 "Backend service timeout"))
  | RequestError =>
      (st, Raise (HTTPException 502 "Backend service unavailable"))
  | ClientCrash => (st, Raise (OtherException "Exception"))
  end.

(** *** Health check functions *)

Definition check_backend_health (now : Z) : string :=
  match probe now with
  | ProbeStatus code => if code =? 200 then "healthy" else "unhealthy"
  | ProbeException => "unreachable"
  end.

(** One turn of the [while True] loop of [update_backend_status], run at
    clock reading [now]. *)
Definition update_backend_status_step (st : State) (now : Z) : State :=
  let st := log_call (CallHealth (urljoin settings.backend_url "/health")) st in
  set_backend_status (check_backend_health now) st.

(** The loop, run at the given successive clock readings. *)
Definition update_backend_status (polls : list Z) (st : State) : State :=
  foldl update_backend_status_step st polls.

Record HealthResponse := {
  hr_status : string;
  hr_timestamp : Z;
  hr_version : string;
  hr_uptime : Z;
  hr_backend_status : string
}.

(** [GET /health]; [start_time] is the module-level clock reading. *)
Definition health_check (start_time now : Z) (st : State)
  : State * HealthResponse :=
  (st, {| hr_status := "healthy"; hr_timestamp := now;
          hr_version := settings.api_version;
          hr_uptime := now - start_time;
          hr_backend_status := backend_status st |}).

(** *** The catch-all route *)

Definition tier_limits : gmap string Z :=
  <["free" := 10]> (<["pro" := 100]> (<["enterprise" := 1000]> ∅)).

(** [tier_limits.get(user.tier, 10)] *)
Definition limit_of (t : string) : Z := default 10 (tier_limits !! t).

(** The block under [if user:]: count the request in the caller's window
    and reject it when the count exceeds the tier's limit. *)
Definition check_rate_limit (now : Z) (path : string) (request : Request)
    (user : option User) (st : State) : State * result unit :=
  match user with
  | None => (st, Ok tt)
  | Some u =>
      let limit := limit_of (tier u) in
      match redis_client st with
      | None => (st, Ok tt)
      | Some r =>
          let key := "rate_limit:" +:+ username u in
          match redis_incr now key r with
          | (r, Raise e) => (set_redis r st, Raise e)
          | (r, Ok current) =>
              let '(r, expired) :=
                if current =? 1 then redis_expire now key 60 r
                else (r, Ok false) in
              let st := set_redis r st in
              match expired with
              | Raise e => (st, Raise e)
              | Ok _ =>
                  if limit <? current then
                    (count_request (method request) path "429" st,
                     Raise (HTTPException 429 "Rate limit exceeded"))
                  else (st, Ok tt)
              end
          end
      end
  end.

(** The [try] block of [proxy_all_requests]. *)
Definition proxy_all_requests_try (now : Z) (path : string)
    (request : Request) (user : option User) (st : State)
  : State * result Response :=
  match check_rate_limit now path request user st with
  | (st, Raise e) => (st, Raise e)
  | (st, Ok _) =>
      match proxy_request now (method request) path request user st with
      | (st, Raise e) => (st, Raise e)
      | (st, Ok response) =>
          let st := count_request (method request) path
                                  (Py.str (status_code response)) st in
          let st := observe_latency (method request) path st in
          (st, Ok response)
      end
  end.

(** [proxy_all_requests] with its two [except] clauses. *)
Definition proxy_all_requests (now : Z) (path : string) (request : Request)
    (user : option User) (st : State) : State * result Response :=
  match proxy_all_requests_try now path request user st with
  | (st, Ok response) => (st, Ok response)
  | (st, Raise (HTTPException code detail)) =>
      (st, Raise (HTTPException code detail))
  | (st, Raise _) =>
      (count_request (method request) path "500" st,
       Raise (HTTPException 500 "Internal server error"))
  end.

(** A request on the catch-all route: FastAPI first resolves the
    dependency [Depends(authenticate_request)] and runs the handler only
    when the dependency returned; an exception of the dependency is the
    outcome of the request. *)
Definition serve (now : Z) (path : string) (request : Request) (st : State)
  : State * result Response :=
  match authenticate_request now (redis_client st) request with
  | Raise e => (st, Raise e)
  | Ok user => proxy_all_requests now path request user st
  end.

(** The state after successive requests of one principal on the
    catch-all route, each given with the clock reading at which it is
    handled. *)
Definition after_requests (user : option User)
    (reqs : list (Z * string * Request)) (st : State) : State :=
  foldl (fun st q => (proxy_all_requests q.1.1 q.1.2 q.2 user st).1) st reqs.

End Gateway.

(** The state of a freshly started process. *)
Definition initial_state (client : option Redis) : State :=
  {| redis_client := client; backend_status := "unknown";
     REQUEST_COUNT := ∅; REQUEST_LATENCY := []; net_log := [] |}.

(** ** What the claims speak of *)

(** A header dictionary carries a header when one of its keys is that name
    in some capitalisation: HTTP header names are case-insensitive. *)
Definition carries (h : gmap string string) (header : string) : bool :=
  existsb (fun kv => String.eqb (Py.lower kv.1) (Py.lower header))
          (map_to_list h).

(** [proxy_request] gets as far as calling the backend: [urljoin] gave
    the URL and the body was read. *)
Definition call_issued (urljoin_raises : string -> string -> bool)
    (body_raises : Z -> Request -> bool) (now : Z) (path : string)
    (request : Request) : Prop :=
  urljoin_raises settings.backend_url path = false /\
  body_raises now request = false.

(** The handler forwarded the request: exactly one backend call was issued,
    and the outcome is not the rate limiter's rejection. *)
Definition admitted (st : State) (out : State * result Response) : Prop :=
  (exists c, backend_calls out.1 = backend_calls st ++ [c]) /\
  (forall detail, out.2 <> Raise (HTTPException 429 detail)).

(** The limiter let the request pass: the outcome is not its rejection. *)
Definition passed (out : State * result Response) : Prop :=
  forall detail, out.2 <> Raise (HTTPException 429 detail).

(** The limiter let the request pass and the handler went on with it: one
    backend call when [proxy_request] gets as far as the call, and the 500
    error without a backend call when it does not. *)
Definition let_through (urljoin_raises : string -> string -> bool)
    (body_raises : Z -> Request -> bool) (now : Z) (path : string)
    (request : Request) (st : State) (out : State * result Response) : Prop :=
  passed out /\
  (call_issued urljoin_raises body_raises now path request ->
   admitted st out) /\
  (~ call_issued urljoin_raises body_raises now path request ->
   out.2 = Raise (HTTPException 500 "Internal server error") /\
   backend_calls out.1 = backend_calls st).

(** The handler rejected the request: the outcome is the 429 error and no
    backend call was issued. *)
Definition rejected (st : State) (out : State * result Response) : Prop :=
  out.2 = Raise (HTTPException 429 "Rate limit exceeded") /\
  backend_calls out.1 = backend_calls st.

(** The key of a principal's rate counter. *)
Definition rate_key (u : User) : string := "rate_limit:" +:+ username u.

(** The principal's window is open in the state: the store is reachable and
    holds the count [n] under the principal's key, expiring at [d]. *)
Definition counting (u : User) (n d : Z) (st : State) : Prop :=
  exists r, redis_client st = Some r /\ reachable r = true /\
            kv r !! rate_key u = Some (RInt n, Some d).

(** The rate counter of a principal, when its key is live. *)
Definition rate_counter (now : Z) (u : User) (st : State) : option Z :=
  match redis_client st with
  | Some r =>
      match redis_lookup now (rate_key u) r with
      | Some (RInt n, _) => Some n
      | _ => None
      end
  | None => None
  end.

(** Requests of one window: the first is handled at [t0], the others not
    earlier and before [t0 + 60]. *)
Definition in_window (t0 : Z) (reqs : list (Z * string * Request)) : Prop :=
  match reqs with
  | [] => True
  | q :: rest => q.1.1 = t0 /\ Forall (fun q' => t0 <= q'.1.1 < t0 + 60) rest
  end.

(** ** A concrete world, for the examples *)

Module Demo.

Definition alice_claims : gmap string json := {[ "sub" := JStr "alice" ]}.
Definition bob_claims : gmap string json :=
  <["tier" := JStr "free"]> {[ "sub" := JStr "bob" ]}.
Definition nosub_claims : gmap string json := {[ "scope" := JStr "read" ]}.

(** Three tokens verify; any other string is rejected by the library. *)
Definition jwt_decode (now : Z) (token : string) : option (gmap string json) :=
  if String.eqb token "alice.jwt" then Some alice_claims
  else if String.eqb token "bob.jwt" then Some bob_claims
  else if String.eqb token "nosub.jwt" then Some nosub_claims
  else None.

Definition urljoin (base path : string) : string := base +:+ "/" +:+ path.

(** The one path of the examples on which [urljoin] raises, and a body that
    can always be read. *)
Definition urljoin_raises (base path : string) : bool :=
  String.eqb path "http://[::1".
Definition body_raises (now : Z) (request : Request) : bool := false.

Definition ok_response : Response :=
  {| content := "{}"; status_code := 200;
     headers := <["connection" := "keep-alive"]>
                  {[ "content-type" := "application/json" ]} |}.

Definition backend_up (now : Z) (c : BackendCall) : backend_outcome :=
  Responded ok_response.
Definition backend_slow (now : Z) (c : BackendCall) : backend_outcome :=
  TimeoutException.
Definition backend_down (now : Z) (c : BackendCall) : backend_outcome :=
  RequestError.

(** The backend fails the probes before clock reading 100 and answers
    200 from then on. *)
Definition probe (now : Z) : probe_outcome :=
  if now <? 100 then ProbeException else ProbeStatus 200.

Definition k1 : APIKey :=
  {| key := "k1"; name := "ci"; created_at := 0; expires_at := None;
     key_tier := "enterprise"; rate_limit := 100; enabled := false |}.

Definition k2 : APIKey :=
  {| key := "k2"; name := "old"; created_at := 0; expires_at := Some (Naive 50);
     key_tier := "pro"; rate_limit := 100; enabled := true |}.

Definition store : Redis :=
  {| reachable := true;
     kv := <["api_key:k2" := (RRecord k2, None)]>
             {[ "api_key:k1" := (RRecord k1, None) ]} |}.

Definition get (hs qs : gmap string string) : Request :=
  {| method := "GET"; req_headers := hs; query_params := qs; body := "" |}.

Definition alice : User := mkUser "alice" None "free".

(** Requests: with the disabled key [k1]; with the expired key [k2] and a
    token that verifies; with a token that does not verify; with a token
    that has no subject; and one without credentials that supplies the
    tier and identifier headers itself. *)
Definition with_disabled_key : Request := get {[ "x-api-key" := "k1" ]} ∅.
Definition with_disabled_key_and_token : Request :=
  get (<["authorization" := "Bearer alice.jwt"]> {[ "x-api-key" := "k1" ]}) ∅.
Definition with_expired_key : Request :=
  get (<["authorization" := "Bearer alice.jwt"]> {[ "x-api-key" := "k2" ]}) ∅.
Definition with_forged_token : Request :=
  get {[ "authorization" := "Bearer forged.jwt" ]} ∅.
Definition with_nosub_token : Request :=
  get {[ "authorization" := "Bearer nosub.jwt" ]} ∅.
Definition spoofing : Request :=
  get (<["x-user-username" := "root"]> {[ "x-user-tier" := "enterprise" ]}) ∅.
Definition plain : Request := get ∅ ∅.
Definition hopping : Request :=
  get (<["connection" := "close"]> {[ "accept" := "text/html" ]}) ∅.

(** A reachable store without keys, and eleven requests of one window
    that opens at clock reading 0. *)
Definition empty_store : Redis := {| reachable := true; kv := ∅ |}.
Definition burst : list (Z * string * Request) :=
  (0, "status", plain) :: replicate 10 (1, "status", plain).

End Demo.

(** ** Token issuing *)

Record Token := {
  access_token : string;
  token_type : string
}.

Module token_settings.
(** [settings.access_token_expire_minutes] *)
Definition access_token_expire_minutes : Z := 30.
End token_settings.

(** [jwt_encode claims] is [jwt.encode(claims, settings.secret_key,
    algorithm=settings.algorithm)].  Clock readings and durations are in
    seconds. *)

Section Tokens.

Variable jwt_encode : gmap string json -> string.

(** A [timedelta] is falsy exactly when it is zero. *)
Definition create_access_token (now : Z) (data : gmap string json)
    (expires_delta : option Z) : string :=
  let to_encode := data in
  let expire :=
    match expires_delta with
    | Some delta => if delta =? 0 then now + 15 * 60 else now + delta
    | None => now + 15 * 60
    end in
  let to_encode := <["exp" := JNum expire]> to_encode in
  jwt_encode to_encode.

(** [POST /auth/login] *)
Definition login (now : Z) (username password : string) : result Token :=
  if String.eqb username "demo" && String.eqb password "demo" then
    let access_token :=
      create_access_token now {[ "sub" := JStr username ]}
        (Some (token_settings.access_token_expire_minutes * 60)) in
    Ok {| access_token := access_token; token_type := "bearer" |}
  else Raise (HTTPException 401 "Invalid credentials").

End Tokens.

(** ** Startup *)

(** The startup half of [lifespan]: [connected] tells whether
    [redis.from_url(...)] and the [ping] went through; when they raised, the
    process runs without a client. *)
Definition lifespan_startup (connected : bool) (r : Redis) : State :=
  initial_state (if connected then Some r else None).

(** ** The WebSocket proxy *)

Module PyStr.

(** [s.replace(old, new)]: [skip] counts the characters of a match that are
    still to be dropped. *)
Fixpoint replace_from (old new : string) (skip : nat) (s : string) : string :=
  match s with
  | EmptyString => EmptyString
  | String c s' =>
      match skip with
      | S k => replace_from old new k s'
      | O =>
          if String.prefix old (String c s')
          then new +:+ replace_from old new (String.length old - 1) s'
          else String c (replace_from old new 0 s')
      end
  end.

(** [s.replace("", new)] puts [new] before every character and at the end. *)
Fixpoint intersperse (new : string) (s : string) : string :=
  match s with
  | EmptyString => new
  | String c s' => new +:+ String c (intersperse new s')
  end.

Definition replace (old new s : string) : string :=
  match old with
  | EmptyString => intersperse new s
  | _ => replace_from old new 0 s
  end.

(** [old in s] *)
Fixpoint contains (old s : string) : bool :=
  String.prefix old s ||
  match s with
  | EmptyString => false
  | String _ s' => contains old s'
  end.

(** [c in s] for a character. *)
Fixpoint has_char (c : ascii) (s : string) : bool :=
  match s with
  | EmptyString => false
  | String a s' => Ascii.eqb a c || has_char c s'
  end.

(** [l.remove(x)] when [x in l]: the first occurrence goes. *)
Fixpoint remove_first (x : nat) (l : list nat) : list nat :=
  match l with
  | [] => []
  | y :: l' => if Nat.eqb y x then l' else y :: remove_first x l'
  end.

End PyStr.

(** What opening [client.stream("GET", url, headers=...)] does: the backend
    answers with a status code, or the client raises. *)
Inductive stream_outcome :=
| StreamStatus (code : Z)
| StreamRaises.

(** The [WebSocketProxy] instance with what it acts on: its list of
    accepted sockets (sockets are numbered), the [ACTIVE_CONNECTIONS] gauge,
    the texts sent to clients and the streams opened to the backend. *)
Record WsState := {
  active_connections : list nat;
  ACTIVE_CONNECTIONS : Z;
  ws_sent : list (nat * string);
  ws_streams : list (string * gmap string string)
}.

Section WebSocket.

Variable urljoin : string -> string -> string.
Variable stream : string -> gmap string string -> stream_outcome.

(** [urljoin(settings.backend_url.replace("http", "ws"), "/ws")] *)
Definition backend_ws_url_of (backend_url : string) : string :=
  urljoin (PyStr.replace "http" "ws" backend_url) "/ws".

Definition backend_ws_url : string := backend_ws_url_of settings.backend_url.

(** The [try] block of [connect]; [send_ok] tells whether
    [websocket.send_text] goes through. *)
Definition connect_try (send_ok : bool) (websocket : nat)
    (user : option User) (ws : WsState) : WsState * result unit :=
  let hdrs : gmap string string :=
    {[ "X-User-Tier" :=
         match user with Some u => tier u | None => "anonymous" end ]} in
  let ws := {| active_connections := active_connections ws;
               ACTIVE_CONNECTIONS := ACTIVE_CONNECTIONS ws;
               ws_sent := ws_sent ws;
               ws_streams := ws_streams ws ++ [(backend_ws_url, hdrs)] |} in
  match stream backend_ws_url hdrs with
  | StreamRaises => (ws, Raise (OtherException "Exception"))
  | StreamStatus code =>
      if negb (code =? 101) then
        if send_ok then
          ({| active_connections := active_connections ws;
              ACTIVE_CONNECTIONS := ACTIVE_CONNECTIONS ws;
              ws_sent := ws_sent ws ++ [(websocket, "WebSocket upgrade failed")];
              ws_streams := ws_streams ws |}, Ok tt)
        else (ws, Raise (OtherException "WebSocketDisconnect"))
      else
        (* _handle_websocket_communication: pass *)
        (ws, Ok tt)
  end.

(** [WebSocketProxy.connect]; [accept_ok] tells whether
    [websocket.accept()] goes through. *)
Definition connect (accept_ok send_ok : bool) (websocket : nat)
    (user : option User) (ws : WsState) : WsState * result unit :=
  if accept_ok then
    let ws := {| active_connections := active_connections ws ++ [websocket];
                 ACTIVE_CONNECTIONS := ACTIVE_CONNECTIONS ws + 1;
                 ws_sent := ws_sent ws;
                 ws_streams := ws_streams ws |} in
    let '(ws, r) := connect_try send_ok websocket user ws in
    (* except WebSocketDisconnect / except Exception: logged *)
    let r := match r with Ok _ => Ok tt | Raise _ => Ok tt end in
    (* finally *)
    ({| active_connections :=
          if bool_decide (websocket ∈ active_connections ws)
          then PyStr.remove_first websocket (active_connections ws)
          else active_connections ws;
        ACTIVE_CONNECTIONS := ACTIVE_CONNECTIONS ws - 1;
        ws_sent := ws_sent ws;
        ws_streams := ws_streams ws |}, r)
  else (ws, Raise (OtherException "RuntimeError")).

End WebSocket.

(** ** Successive requests *)

Section Serving.

Variable jwt_decode : Z -> string -> option (gmap string json).
Variable urljoin : string -> string -> string.
Variable urljoin_raises : string -> string -> bool.
Variable body_raises : Z -> Request -> bool.
Variable backend : Z -> BackendCall -> backend_outcome.

(** The state after successive requests on the catch-all route, each with
    the clock reading at which it is handled. *)
Definition after_serving (reqs : list (Z * string * Request)) (st : State)
  : State :=
  foldl (fun st q =>
           (serve jwt_decode urljoin urljoin_raises body_raises backend
                  q.1.1 q.1.2 q.2 st).1)
        st reqs.

End Serving.

(** ** Further concrete inputs *)

Module Sample.

(** A signing function with its verification: the one token it issues
    decodes to the claims of the demo login at clock reading 0. *)
Definition demo_claims : gmap string json :=
  <["exp" := JNum 1800]> {[ "sub" := JStr "demo" ]}.
Definition jwt_encode (claims : gmap string json) : string := "demo.jwt".
Definition jwt_decode (now : Z) (token : string) : option (gmap string json) :=
  if String.eqb token "demo.jwt" then Some demo_claims else None.

Definition k3 : APIKey :=
  {| key := "k3"; name := "ops"; created_at := 0; expires_at := Some (Naive 500);
     key_tier := "enterprise"; rate_limit := 5; enabled := true |}.

(** A record whose expiry was stored with an offset. *)
Definition k4 : APIKey :=
  {| key := "k4"; name := "eu"; created_at := 0; expires_at := Some (Aware 900);
     key_tier := "pro"; rate_limit := 100; enabled := true |}.

Definition store : Redis :=
  {| reachable := true;
     kv := <["rate_limit:alice" := (RInt 10, Some 60)]>
             (<["api_key:junk" := (RRaw "not json", None)]>
                (<["api_key:k4" := (RRecord k4, None)]>
                   {[ "api_key:k3" := (RRecord k3, None) ]})) |}.

Definition with_aware_key : Request :=
  Demo.get {[ "x-api-key" := "k4" ]} ∅.

(** The path on which [urljoin] raises. *)
Definition broken_path : string := "http://[::1".

Definition store_down : Redis := {| reachable := false; kv := kv store |}.

Definition with_key_and_token : Request :=
  Demo.get (<["authorization" := "Bearer alice.jwt"]> {[ "x-api-key" := "k3" ]}) ∅.
Definition with_key_in_query : Request :=
  Demo.get {[ "x-api-key" := "" ]} {[ "api_key" := "k3" ]}.
Definition with_unknown_key : Request :=
  Demo.get {[ "x-api-key" := "nobody" ]} ∅.
Definition with_basic_auth : Request :=
  Demo.get {[ "authorization" := "bearer alice.jwt" ]} ∅.
Definition with_token_and_more : Request :=
  Demo.get {[ "authorization" := "Bearer alice.jwt trailing words" ]} ∅.
Definition with_demo_token : Request :=
  Demo.get {[ "authorization" := "Bearer demo.jwt" ]} ∅.

Definition teapot : Response :=
  {| content := "short and stout"; status_code := 418; headers := ∅ |}.
Definition backend_teapot (now : Z) (c : BackendCall) : backend_outcome :=
  Responded teapot.

Definition stream_refused (url : string) (h : gmap string string)
  : stream_outcome := StreamStatus 404.
Definition stream_upgraded (url : string) (h : gmap string string)
  : stream_outcome := StreamStatus 101.

Definition no_sockets : WsState :=
  {| active_connections := [4%nat; 7%nat]; ACTIVE_CONNECTIONS := 2;
     ws_sent := []; ws_streams := [] |}.

End Sample.

(** * Properties *)

(** A literal name is none of the names of a literal list. *)
Ltac not_listed :=
  let Hin := fresh "Hin" in
  intros Hin;
  repeat (apply elem_of_cons in Hin as [Hin|Hin]; [discriminate Hin|]);
  by apply elem_of_nil in Hin.

(** ** Header dictionaries *)

Lemma pop_all_lookup (l : list string) (h : gmap string string) (k : string) :
  foldl (fun acc header => delete header acc) h l !! k
  = if decide (k ∈ l) then None else h !! k.
Proof.
  revert h. induction l as [|x l IH]; intros h; cbn [foldl].
  - case_decide as Hin; [by apply elem_of_nil in Hin | done].
  - rewrite IH. destruct (decide (k ∈ l)) as [Hl|Hl].
    + rewrite decide_True; [done | apply elem_of_cons; by right].
    + destruct (decide (x = k)) as [->|Hne].
      * rewrite lookup_delete_eq. rewrite decide_True; [done | apply elem_of_cons; by left].
      * rewrite lookup_delete_ne by done.
        rewrite decide_False; [done|].
        intros [?|?]%elem_of_cons; congruence.
Qed.

Lemma pop_hop_by_hop_lookup (h : gmap string string) (k : string) :
  pop_hop_by_hop h !! k = if decide (k ∈ hop_by_hop_headers) then None else h !! k.
Proof. apply pop_all_lookup. Qed.


Lemma pop_hop_by_hop_other (h : gmap string string) (k : string) :
  k ∉ hop_by_hop_headers -> pop_hop_by_hop h !! k = h !! k.
Proof. intros Hk. rewrite pop_hop_by_hop_lookup. by rewrite decide_False. Qed.


Lemma call_issued_dec (urljoin_raises : string -> string -> bool)
    (body_raises : Z -> Request -> bool) now path request :
  call_issued urljoin_raises body_raises now path request \/
  ~ call_issued urljoin_raises body_raises now path request.
Proof.
  unfold call_issued.
  destruct (urljoin_raises _ _), (body_raises _ _);
    [right | right | right | left]; try (intros [? ?]; discriminate).
  by split.
Qed.

Section ForwarderProperties.

Variable urljoin : string -> string -> string.
Variable urljoin_raises : string -> string -> bool.
Variable body_raises : Z -> Request -> bool.
Variable backend : Z -> BackendCall -> backend_outcome.

(** [proxy_request] once the URL is built and the body read. *)
Lemma proxy_request_issued now m path request user st :
  call_issued urljoin_raises body_raises now path request ->
  proxy_request urljoin urljoin_raises body_raises backend now m path request
                user st
  = let call := backend_call urljoin m path request user in
    let st := log_call (CallBackend call) st in
    match backend now call with
    | Responded response =>
        (st, Ok {| content := content response;
                   status_code := status_code response;
                   headers := pop_hop_by_hop (headers response) |})
    | TimeoutException =>
        (st, Raise (HTTPException 504 "Backend service timeout"))
    | RequestError =>
        (st, Raise (HTTPException 502 "Backend service unavailable"))
    | ClientCrash => (st, Raise (OtherException "Exception"))
    end.
Proof. intros [Hurl Hbody]. unfold proxy_request. by rewrite Hurl, Hbody. Qed.

(** [proxy_request] when [urljoin] or the body read raises. *)
Lemma proxy_request_declined now m path request user st :
  ~ call_issued urljoin_raises body_raises now path request ->
  exists class,
    proxy_request urljoin urljoin_raises body_raises backend now m path request
                  user st
    = (st, Raise (OtherException class)).
Proof.
  unfold call_issued, proxy_request. intros Hno.
  destruct (urljoin_raises _ _); [by eexists|].
  destruct (body_raises _ _); [by eexists|].
  by destruct Hno.
Qed.

Lemma backend_calls_app (st : State) (c : NetCall) :
  backend_calls (log_call c st)
  = backend_calls st
    ++ match c with CallBackend b => [b] | CallHealth _ => [] end.
Proof.
  unfold backend_calls, log_call; simpl. rewrite omap_app.
  by destruct c.
Qed.

(** [proxy_request] issues exactly the call [backend_call] describes. *)
Lemma proxy_request_log now m path request user st :
  call_issued urljoin_raises body_raises now path request ->
  net_log (proxy_request urljoin urljoin_raises body_raises backend now m path
                         request user st).1
  = net_log st ++ [CallBackend (backend_call urljoin m path request user)].
Proof.
  intros Hgo. rewrite (proxy_request_issued _ _ _ _ _ _ Hgo). simpl.
  by destruct (backend now _).
Qed.

Lemma proxy_request_calls now m path request user st :
  call_issued urljoin_raises body_raises now path request ->
  backend_calls (proxy_request urljoin urljoin_raises body_raises backend now m
                               path request user st).1
  = backend_calls st ++ [backend_call urljoin m path request user].
Proof.
  intros Hgo. rewrite (proxy_request_issued _ _ _ _ _ _ Hgo). simpl.
  destruct (backend now _); simpl; by rewrite backend_calls_app.
Qed.


(** C7. The backend call is issued on a client with the configured timeout
    of 30 seconds, and [proxy_request] never issues a second call.  Once the
    call is issued, a timeout of that call ends in the 504 error and another
    transport failure in the 502 error; and whenever [proxy_request] ends in
    an HTTP error, it is the 504 error after a timeout or the 502 error
    after another transport failure of the one call it issued. *)
Theorem backend_failure_outcomes now m path request user st :
  let call := backend_call urljoin m path request user in
  let out := proxy_request urljoin urljoin_raises body_raises backend now m
                           path request user st in
  call_timeout call = settings.backend_timeout /\
  (backend_calls out.1 = backend_calls st \/
   backend_calls out.1 = backend_calls st ++ [call]) /\
  (call_issued urljoin_raises body_raises now path request ->
   backend_calls out.1 = backend_calls st ++ [call] /\
   (backend now call = TimeoutException ->
    out.2 = Raise (HTTPException 504 "Backend service timeout")) /\
   (backend now call = RequestError ->
    out.2 = Raise (HTTPException 502 "Backend service unavailable"))) /\
  (forall code detail, out.2 = Raise (HTTPException code detail) ->
     backend_calls out.1 = backend_calls st ++ [call] /\
     ((code = 504 /\ backend now call = TimeoutException) \/
      (code = 502 /\ backend now call = RequestError))).
Proof.
  intros call out. split; [reflexivity|].
  destruct (call_issued_dec urljoin_raises body_raises now path request)
    as [Hgo|Hno].
  - pose proof (proxy_request_calls now m path request user st Hgo) as Hcalls.
    fold out call in Hcalls.
    split; [by right|]. split.
    + intros _. split; [done|]. subst out.
      rewrite (proxy_request_issued _ _ _ _ _ _ Hgo). simpl. fold call.
      split; intros ->; reflexivity.
    + intros code detail Hout. split; [done|]. subst out.
      rewrite (proxy_request_issued _ _ _ _ _ _ Hgo) in Hout. simpl in Hout.
      fold call in Hout. revert Hout.
      destruct (backend now call); intros Hout; simpl in Hout; simplify_eq;
        [left | right]; done.
  - subst out.
    destruct (proxy_request_declined now m path request user st Hno)
      as [class ->]. simpl.
    split; [by left|]. split; [done|]. intros code detail [=].
Qed.

(** C2, as the code has it.  The proxy removes only the hop-by-hop names:
    with a resolved principal the header dictionary sent to the backend
    maps [X-User-Tier] to the principal's tier and [X-User-Username] to its
    identifier and keeps every other inbound header outside the hop-by-hop
    set; with no principal it is the inbound dictionary without the
    hop-by-hop names, whatever the client put under other names. *)
Theorem injected_headers m path request user :
  let sent := call_headers (backend_call urljoin m path request user) in
  (forall u, user = Some u ->
     sent !! "X-User-Tier" = Some (tier u) /\
     sent !! "X-User-Username" = Some (username u) /\
     (forall k, k ∉ hop_by_hop_headers ->
                k <> "X-User-Tier" -> k <> "X-User-Username" ->
                sent !! k = req_headers request !! k)) /\
  (user = None ->
     sent = pop_hop_by_hop (req_headers request) /\
     (forall k, k ∉ hop_by_hop_headers -> sent !! k = req_headers request !! k)).
Proof.
  intros sent. subst sent. simpl. unfold outbound_headers. split.
  - intros u ->. repeat split.
    + rewrite lookup_insert_ne by done. apply lookup_insert_eq.
    + apply lookup_insert_eq.
    + intros k Hk Ht Hn. rewrite !lookup_insert_ne by done.
      by apply pop_hop_by_hop_other.
  - intros ->. split; [done|]. intros k Hk. by apply pop_hop_by_hop_other.
Qed.

End ForwarderProperties.

(** ** Authentication *)

Section AuthenticatorProperties.

Variable jwt_decode : Z -> string -> option (gmap string json).

(** The bearer-token fallback of [authenticate_request] never raises. *)
Lemma jwt_fallback_returns now request :
  exists user, jwt_fallback jwt_decode now request = Ok user.
Proof.
  unfold jwt_fallback.
  destruct (jwt_fallback_try jwt_decode now request) as [[u|]|e]; eauto.
Qed.

(** [get_current_user] itself answers a token that does not verify, or
    that has no subject, with the 401 error. *)
Lemma get_current_user_rejects now token :
  (jwt_decode now token = None \/
   exists payload, jwt_decode now token = Some payload /\
                   payload !! "sub" = None) ->
  get_current_user jwt_decode now token = Raise credentials_exception.
Proof.
  unfold get_current_user, get_current_user_try.
  intros [->|(payload & -> & Hsub)]; simpl; [done|]. by rewrite Hsub.
Qed.

(** An enabled key whose expiry lies in the past is answered with the 401
    error, whatever else the request carries. *)
Lemma expired_key_unauthorized now r request api_key (info : APIKey) e d :
  get_api_key_from_header request = Some api_key ->
  Py.truthy api_key = true ->
  reachable r = true ->
  kv r !! ("api_key:" +:+ api_key) = Some (RRecord info, d) ->
  live now (RRecord info, d) = true ->
  enabled info = true ->
  expires_at info = Some (Naive e) ->
  e < now ->
  authenticate_request jwt_decode now (Some r) request
  = Raise (HTTPException 401 "API key expired").
Proof.
  intros Hkey Htruthy Hup Hkv Hlive Hen Hexp Hlt.
  unfold authenticate_request. rewrite Hkey, Htruthy.
  unfold validate_api_key, redis_get, redis_lookup.
  rewrite Hup, Hkv, Hlive. simpl. rewrite Hen, Hexp.
  by rewrite (proj2 (Z.ltb_lt e now) Hlt).
Qed.

(** A disabled key is treated like no key at all. *)
Lemma disabled_key_falls_through now r request api_key (info : APIKey) d :
  get_api_key_from_header request = Some api_key ->
  kv r !! ("api_key:" +:+ api_key) = Some (RRecord info, d) ->
  enabled info = false ->
  authenticate_request jwt_decode now (Some r) request
  = jwt_fallback jwt_decode now request.
Proof.
  intros Hkey Hkv Hen.
  unfold authenticate_request. rewrite Hkey.
  destruct (Py.truthy api_key); [|done].
  unfold validate_api_key, redis_get, redis_lookup.
  destruct (reachable r); [|done]. rewrite Hkv.
  destruct (live now _); simpl; [|done]. by rewrite Hen.
Qed.

(** C10. With no credential-store client, [validate_api_key] returns no
    record for any key, and [authenticate_request] is the bearer-token
    fallback, which returns a principal or the anonymous [None] and never
    fails. *)
Theorem no_client_falls_through now request :
  (forall api_key, validate_api_key now None api_key = None) /\
  authenticate_request jwt_decode now None request
  = jwt_fallback jwt_decode now request /\
  exists user, authenticate_request jwt_decode now None request = Ok user.
Proof.
  assert (authenticate_request jwt_decode now None request
          = jwt_fallback jwt_decode now request) as Heq.
  { unfold authenticate_request.
    destruct (get_api_key_from_header request) as [k|]; [|done].
    by destruct (Py.truthy k). }
  split; [done|]. split; [done|].
  rewrite Heq. apply jwt_fallback_returns.
Qed.

(** C4, as the code has it.  A token that verifies and has a string
    subject yields the principal named by the subject with the tier "pro",
    whatever else the claims hold. *)
Theorem bearer_tier_is_pro now token payload subject :
  jwt_decode now token = Some payload ->
  payload !! "sub" = Some (JStr subject) ->
  get_current_user jwt_decode now token
  = Ok (mkUser subject (Some (subject +:+ "@example.com")) "pro").
Proof.
  intros Hdec Hsub. unfold get_current_user, get_current_user_try.
  rewrite Hdec. simpl. by rewrite Hsub.
Qed.

End AuthenticatorProperties.

(** C1, on the code.  The key [k1] is stored with [enabled = false]; the
    request presenting it is resolved as anonymous, forwarded to the backend
    and answered with the backend's 200, and the request presenting it next
    to a token that verifies is resolved as the token's principal. *)
Theorem disabled_key_is_forwarded :
  enabled Demo.k1 = false /\
  authenticate_request Demo.jwt_decode 0 (Some Demo.store) Demo.with_disabled_key
  = Ok None /\
  authenticate_request Demo.jwt_decode 0 (Some Demo.store)
                       Demo.with_disabled_key_and_token
  = Ok (Some (mkUser "alice" (Some "alice@example.com") "pro")) /\
  (serve Demo.jwt_decode Demo.urljoin Demo.urljoin_raises Demo.body_raises
         Demo.backend_up 0 "status"
         Demo.with_disabled_key (initial_state (Some Demo.store))).2
  = Ok {| content := "{}"; status_code := 200;
          headers := {[ "content-type" := "application/json" ]} |} /\
  length (backend_calls
            (serve Demo.jwt_decode Demo.urljoin Demo.urljoin_raises
                   Demo.body_raises Demo.backend_up 0 "status"
                   Demo.with_disabled_key (initial_state (Some Demo.store))).1)
  = 1%nat.
Proof. vm_compute. repeat split. Qed.

(** C3, on the code.  [get_current_user] answers the forged token and the
    token without subject with the 401 error, but [authenticate_request]
    resolves both requests as anonymous, and the request with the forged
    token is forwarded to the backend. *)
Theorem invalid_bearer_is_anonymous :
  get_current_user Demo.jwt_decode 0 "forged.jwt" = Raise credentials_exception /\
  get_current_user Demo.jwt_decode 0 "nosub.jwt" = Raise credentials_exception /\
  authenticate_request Demo.jwt_decode 0 (Some Demo.store) Demo.with_forged_token
  = Ok None /\
  authenticate_request Demo.jwt_decode 0 (Some Demo.store) Demo.with_nosub_token
  = Ok None /\
  length (backend_calls
            (serve Demo.jwt_decode Demo.urljoin Demo.urljoin_raises
                   Demo.body_raises Demo.backend_up 0 "status"
                   Demo.with_forged_token (initial_state (Some Demo.store))).1)
  = 1%nat.
Proof. vm_compute. repeat split. Qed.

(** C4, as stated, fails: the claims of ["alice.jwt"] hold no tier and the
    principal's tier is "pro", not "free"; the claims of ["bob.jwt"] hold the
    tier "free" and the principal's tier is "pro" all the same. *)
Lemma bearer_tier_not_from_claims :
  Demo.jwt_decode 0 "alice.jwt" = Some Demo.alice_claims /\
  Demo.alice_claims !! "tier" = None /\
  (exists u, get_current_user Demo.jwt_decode 0 "alice.jwt" = Ok u /\
             tier u = "pro" /\ tier u <> "free") /\
  Demo.bob_claims !! "tier" = Some (JStr "free") /\
  (exists u, get_current_user Demo.jwt_decode 0 "bob.jwt" = Ok u /\
             tier u = "pro").
Proof.
  repeat split; try (vm_compute; reflexivity).
  - eexists. split; [vm_compute; reflexivity|]. split; [reflexivity|discriminate].
  - eexists. split; [vm_compute; reflexivity|]. reflexivity.
Qed.

(** C2, as stated, fails: the request without credentials that supplies
    [x-user-tier] and [x-user-username] itself reaches the backend with both
    headers, and with a resolved principal the client's [x-user-tier] is
    sent next to the injected [X-User-Tier]. *)
Lemma client_supplied_tier_reaches_backend :
  authenticate_request Demo.jwt_decode 0 None Demo.spoofing = Ok None /\
  (call_headers <$>
     backend_calls
       (serve Demo.jwt_decode Demo.urljoin Demo.urljoin_raises Demo.body_raises
              Demo.backend_up 0 "status"
              Demo.spoofing (initial_state None)).1)
  = [ <["x-user-username" := "root"]> {[ "x-user-tier" := "enterprise" ]} ] /\
  carries (outbound_headers Demo.spoofing None) "X-User-Tier" = true /\
  carries (outbound_headers Demo.spoofing None) "X-User-Username" = true /\
  outbound_headers Demo.spoofing (Some Demo.alice) !! "x-user-tier"
  = Some "enterprise" /\
  outbound_headers Demo.spoofing (Some Demo.alice) !! "X-User-Tier"
  = Some "free".
Proof. vm_compute. repeat split. Qed.

(** ** Failure paths and metrics *)

Section MetricsProperties.

Variable urljoin : string -> string -> string.
Variable urljoin_raises : string -> string -> bool.
Variable body_raises : Z -> Request -> bool.
Variable backend : Z -> BackendCall -> backend_outcome.

(** An exception of the backend call that is no [httpx.RequestError] is
    counted under the status label "500", and so is an exception raised
    before the call. *)
Lemma internal_error_counted now path request st :
  backend now (backend_call urljoin (method request) path request None)
  = ClientCrash ->
  let out := proxy_all_requests urljoin urljoin_raises body_raises backend now
                                path request None st in
  out.2 = Raise (HTTPException 500 "Internal server error") /\
  counted (method request) path "500" out.1
  = S (counted (method request) path "500" st).
Proof.
  intros Hb. simpl.
  unfold proxy_all_requests, proxy_all_requests_try, check_rate_limit,
    proxy_request.
  destruct (urljoin_raises _ _); [|destruct (body_raises _ _)];
    rewrite ?Hb; simpl; (split; [done|]);
    unfold counted; simpl; by rewrite lookup_insert_eq.
Qed.

(** A timeout or transport failure of the backend call leaves every
    counter as it was. *)
Lemma gateway_error_uncounted now path request st :
  call_issued urljoin_raises body_raises now path request ->
  backend now (backend_call urljoin (method request) path request None)
  = TimeoutException \/
  backend now (backend_call urljoin (method request) path request None)
  = RequestError ->
  REQUEST_COUNT (proxy_all_requests urljoin urljoin_raises body_raises backend
                                    now path request None st).1
  = REQUEST_COUNT st.
Proof.
  intros [Hurl Hbody].
  unfold proxy_all_requests, proxy_all_requests_try, check_rate_limit,
    proxy_request. rewrite Hurl, Hbody.
  intros [-> | ->]; reflexivity.
Qed.

End MetricsProperties.

(** C6, on the code.  A backend timeout is answered with the 504 error, a
    refused connection with the 502 error and an expired key with the 401
    error, and in all three cases no counter has been incremented. *)
Theorem gateway_errors_leave_no_metric :
  (serve Demo.jwt_decode Demo.urljoin Demo.urljoin_raises Demo.body_raises
         Demo.backend_slow 0 "status"
         Demo.plain (initial_state None)).2
  = Raise (HTTPException 504 "Backend service timeout") /\
  REQUEST_COUNT
    (serve Demo.jwt_decode Demo.urljoin Demo.urljoin_raises Demo.body_raises
           Demo.backend_slow 0 "status"
           Demo.plain (initial_state None)).1 = ∅ /\
  (serve Demo.jwt_decode Demo.urljoin Demo.urljoin_raises Demo.body_raises
         Demo.backend_down 0 "status"
         Demo.plain (initial_state None)).2
  = Raise (HTTPException 502 "Backend service unavailable") /\
  REQUEST_COUNT
    (serve Demo.jwt_decode Demo.urljoin Demo.urljoin_raises Demo.body_raises
           Demo.backend_down 0 "status"
           Demo.plain (initial_state None)).1 = ∅ /\
  (serve Demo.jwt_decode Demo.urljoin Demo.urljoin_raises Demo.body_raises
         Demo.backend_up 100 "status"
         Demo.with_expired_key (initial_state (Some Demo.store))).2
  = Raise (HTTPException 401 "API key expired") /\
  REQUEST_COUNT
    (serve Demo.jwt_decode Demo.urljoin Demo.urljoin_raises Demo.body_raises
           Demo.backend_up 100 "status"
           Demo.with_expired_key (initial_state (Some Demo.store))).1 = ∅.
Proof. vm_compute. repeat split. Qed.

(** ** Backend health *)

Section HealthProperties.

Variable urljoin : string -> string -> string.
Variable probe : Z -> probe_outcome.

Lemma update_backend_status_snoc polls t st :
  update_backend_status urljoin probe (polls ++ [t]) st
  = update_backend_status_step urljoin probe
      (update_backend_status urljoin probe polls st) t.
Proof. unfold update_backend_status. by rewrite foldl_app. Qed.

(** C9, as the code has it.  After every poll the health endpoint reports
    the result of that poll: "unreachable" when the probe raised, "healthy"
    when it returned status 200, whatever the polls before it gave.
    Serving the endpoint leaves the state, and with it the log of network
    calls, as it was. *)
Theorem health_reports_last_poll polls t start now st :
  let polled := update_backend_status urljoin probe (polls ++ [t]) st in
  let out := health_check start now polled in
  hr_backend_status out.2 = check_backend_health probe t /\
  (probe t = ProbeException -> hr_backend_status out.2 = "unreachable") /\
  (probe t = ProbeStatus 200 -> hr_backend_status out.2 = "healthy") /\
  out.1 = polled /\
  net_log out.1 = net_log polled.
Proof.
  intros polled out. subst out polled. simpl.
  rewrite update_backend_status_snoc. simpl.
  unfold check_backend_health.
  repeat split; intros ->; reflexivity.
Qed.

End HealthProperties.

(** C9, as stated, fails: a single failed poll is enough for the health
    endpoint to report "unreachable". *)
Lemma unreachable_after_one_failed_poll :
  Demo.probe 0 = ProbeException /\
  hr_backend_status
    (health_check 0 1
       (update_backend_status Demo.urljoin Demo.probe [0] (initial_state None))).2
  = "unreachable".
Proof. vm_compute. split; reflexivity. Qed.

(** ** The rate limiter *)

Lemma limit_of_cases (t : string) :
  limit_of t = 10 \/ limit_of t = 100 \/ limit_of t = 1000.
Proof.
  unfold limit_of, tier_limits.
  destruct (decide (t = "free")) as [->|Hf]; [by left|].
  rewrite lookup_insert_ne by done.
  destruct (decide (t = "pro")) as [->|Hp]; [by right; left|].
  rewrite lookup_insert_ne by done.
  destruct (decide (t = "enterprise")) as [->|He]; [by right; right|].
  rewrite lookup_insert_ne by done. by left.
Qed.

Lemma limit_of_tiers :
  limit_of "free" = 10 /\ limit_of "pro" = 100 /\ limit_of "enterprise" = 1000.
Proof. repeat split. Qed.

Lemma limit_of_bounds (t : string) : 10 <= limit_of t < int64_max.
Proof.
  unfold int64_max.
  destruct (limit_of_cases t) as [-> | [-> | ->]]; lia.
Qed.

(** What the limiter leaves alone, and the two ways it can fail. *)
Lemma check_rate_limit_frame now path request user st :
  let out := check_rate_limit now path request user st in
  net_log out.1 = net_log st /\
  backend_status out.1 = backend_status st /\
  REQUEST_LATENCY out.1 = REQUEST_LATENCY st /\
  (redis_client st = None -> out = (st, Ok tt)) /\
  match out.2 with
  | Ok _ => REQUEST_COUNT out.1 = REQUEST_COUNT st
  | Raise e => e = HTTPException 429 "Rate limit exceeded" \/ e = redis_error
  end.
Proof.
  unfold check_rate_limit, redis_incr, redis_expire.
  repeat case_match; simplify_eq; simpl; repeat split; auto; try done;
    simpl in *; simplify_eq; auto.
Qed.

Section LimiterProperties.

Variable urljoin : string -> string -> string.
Variable urljoin_raises : string -> string -> bool.
Variable body_raises : Z -> Request -> bool.
Variable backend : Z -> BackendCall -> backend_outcome.

Implicit Types (u : User) (st : State) (r : Redis) (request : Request).

(** The first request of a window: the key is absent or expired. *)
Lemma check_rate_limit_fresh now path request u st r :
  redis_client st = Some r -> reachable r = true ->
  redis_lookup now (rate_key u) r = None ->
  check_rate_limit now path request (Some u) st
  = (set_redis {| reachable := true;
                  kv := <[rate_key u := (RInt 1, Some (now + 60))]> (kv r) |} st,
     Ok tt).
Proof.
  intros Hc Hup Hfresh. unfold check_rate_limit. rewrite Hc.
  unfold redis_incr. fold (rate_key u). rewrite Hup, Hfresh. simpl.
  unfold redis_expire, redis_lookup; simpl.
  rewrite lookup_insert_eq. simpl. rewrite insert_insert_eq.
  destruct (limit_of_bounds (tier u)) as [Hlo _].
  destruct (Z.ltb_spec (limit_of (tier u)) 1) as [?|_]; [lia|done].
Qed.

(** A later request of the window, below the store's integer range. *)
Lemma check_rate_limit_live now path request u st r n d :
  redis_client st = Some r -> reachable r = true ->
  kv r !! rate_key u = Some (RInt n, Some d) ->
  1 <= n < int64_max -> now < d ->
  let r' := {| reachable := true;
               kv := <[rate_key u := (RInt (n + 1), Some d)]> (kv r) |} in
  check_rate_limit now path request (Some u) st
  = if limit_of (tier u) <? n + 1
    then (count_request (method request) path "429" (set_redis r' st),
          Raise (HTTPException 429 "Rate limit exceeded"))
    else (set_redis r' st, Ok tt).
Proof.
  intros Hc Hup Hkv [Hn1 HnM] Hd r'. unfold check_rate_limit. rewrite Hc.
  unfold redis_incr, redis_lookup. fold (rate_key u). rewrite Hup, Hkv.
  unfold live; simpl.
  rewrite (proj2 (Z.ltb_lt now d) Hd), (proj2 (Z.ltb_lt n int64_max) HnM).
  destruct (Z.eqb_spec (n + 1) 1) as [?|_]; [lia|].
  by destruct (limit_of (tier u) <? n + 1).
Qed.

(** A request of the window when the count has reached the end of the
    store's integer range: [INCR] fails and the store stays as it is. *)
Lemma check_rate_limit_overflow now path request u st r n d :
  redis_client st = Some r -> reachable r = true ->
  kv r !! rate_key u = Some (RInt n, Some d) ->
  int64_max <= n -> now < d ->
  check_rate_limit now path request (Some u) st
  = (set_redis r st, Raise redis_error).
Proof.
  intros Hc Hup Hkv HnM Hd. unfold check_rate_limit. rewrite Hc.
  unfold redis_incr, redis_lookup. fold (rate_key u). rewrite Hup, Hkv.
  unfold live; simpl. rewrite (proj2 (Z.ltb_lt now d) Hd).
  destruct (Z.ltb_spec n int64_max) as [?|_]; [lia|done].
Qed.

(** What the handler does once the limiter has let the request pass. *)
Lemma proxy_all_requests_pass now path request user st st1 :
  check_rate_limit now path request user st = (st1, Ok tt) ->
  let out := proxy_all_requests urljoin urljoin_raises body_raises backend now
                                path request user st in
  redis_client out.1 = redis_client st1 /\
  let_through urljoin_raises body_raises now path request st out.
Proof.
  intros Hpass. simpl.
  pose proof (check_rate_limit_frame now path request user st) as (Hlog & _).
  rewrite Hpass in Hlog. simpl in Hlog.
  assert (backend_calls st1 = backend_calls st) as Hsame
    by (unfold backend_calls; by rewrite Hlog).
  unfold proxy_all_requests, proxy_all_requests_try. rewrite Hpass.
  destruct (call_issued_dec urljoin_raises body_raises now path request)
    as [Hgo|Hno].
  - rewrite (proxy_request_issued urljoin urljoin_raises body_raises backend
               _ _ _ _ _ _ Hgo). simpl.
    assert (backend_calls
              (log_call (CallBackend
                 (backend_call urljoin (method request) path request user)) st1)
            = backend_calls st
              ++ [backend_call urljoin (method request) path request user])
      as Hcalls by (by rewrite backend_calls_app, Hsame).
    destruct (backend now _); simpl;
      (split; [reflexivity|]);
      (split; [intros ? ?; discriminate|]);
      (split; [|intros Hno; by destruct Hno]);
      intros _; (split; [eexists; exact Hcalls | intros ? ?; discriminate]).
  - destruct (proxy_request_declined urljoin urljoin_raises body_raises backend
                now (method request) path request user st1 Hno) as [class ->].
    simpl. split; [reflexivity|].
    split; [intros ? ?; discriminate|].
    split; [intros Hgo; by destruct Hno|].
    intros _. split; [reflexivity | exact Hsame].
Qed.

(** What the handler does once the limiter has raised. *)
Lemma proxy_all_requests_stop now path request user st st1 e :
  check_rate_limit now path request user st = (st1, Raise e) ->
  let out := proxy_all_requests urljoin urljoin_raises body_raises backend now
    path request user st in
  redis_client out.1 = redis_client st1 /\
  backend_calls out.1 = backend_calls st1 /\
  out.2 = match e with
          | HTTPException code detail => Raise (HTTPException code detail)
          | _ => Raise (HTTPException 500 "Internal server error")
          end.
Proof.
  intros Hstop. simpl.
  unfold proxy_all_requests, proxy_all_requests_try. rewrite Hstop.
  by destruct e.
Qed.

Lemma fresh_request_admitted now path request u st r :
  redis_client st = Some r -> reachable r = true ->
  redis_lookup now (rate_key u) r = None ->
  let out := proxy_all_requests urljoin urljoin_raises body_raises backend now
                                path request (Some u) st in
  let_through urljoin_raises body_raises now path request st out /\
  counting u 1 (now + 60) out.1.
Proof.
  intros Hc Hup Hfresh out.
  pose proof (check_rate_limit_fresh now path request u st r Hc Hup Hfresh)
    as Hcheck.
  destruct (proxy_all_requests_pass _ _ _ _ _ _ Hcheck) as (Hr & Hthrough).
  fold out in Hr, Hthrough. split; [exact Hthrough|].
  eexists. split; [exact Hr|]. split; [done|]. simpl.
  apply lookup_insert_eq.
Qed.

Lemma live_request now path request u st n d :
  counting u n d st -> 1 <= n < int64_max -> now < d ->
  let out := proxy_all_requests urljoin urljoin_raises body_raises backend now
                                path request (Some u) st in
  counting u (n + 1) d out.1 /\
  (n < limit_of (tier u) ->
   let_through urljoin_raises body_raises now path request st out) /\
  (limit_of (tier u) <= n -> rejected st out).
Proof.
  intros (r & Hc & Hup & Hkv) Hn Hd out.
  pose proof (check_rate_limit_live now path request u st r n d
                Hc Hup Hkv Hn Hd) as Hcheck. cbv zeta in Hcheck.
  assert (forall r', redis_client out.1 = Some r' ->
            r' = {| reachable := true;
                    kv := <[rate_key u := (RInt (n + 1), Some d)]> (kv r) |} ->
            counting u (n + 1) d out.1) as Hcount.
  { intros r' Hr ->. exists {| reachable := true;
      kv := <[rate_key u := (RInt (n + 1), Some d)]> (kv r) |}.
    split; [exact Hr|]. split; [done|]. apply lookup_insert_eq. }
  destruct (Z.lt_ge_cases (limit_of (tier u)) (n + 1)) as [Hover|Hunder].
  - rewrite (proj2 (Z.ltb_lt _ _) Hover) in Hcheck.
    destruct (proxy_all_requests_stop _ _ _ _ _ _ _ Hcheck) as (Hr & Hcalls & Ho).
    fold out in Hr, Hcalls, Ho.
    split; [simpl in Hr; by apply (Hcount _ Hr)|]. split; [intros ?; lia|].
    intros _. split; [exact Ho | exact Hcalls].
  - rewrite (proj2 (Z.ltb_ge _ _) Hunder) in Hcheck.
    destruct (proxy_all_requests_pass _ _ _ _ _ _ Hcheck) as (Hr & Hthrough).
    fold out in Hr, Hthrough.
    split; [simpl in Hr; by apply (Hcount _ Hr)|]. split; [|intros ?; lia].
    intros _. exact Hthrough.
Qed.

Lemma overflow_request now path request u st n d :
  counting u n d st -> int64_max <= n -> now < d ->
  counting u n d
    (proxy_all_requests urljoin urljoin_raises body_raises backend now path
      request (Some u) st).1.
Proof.
  intros (r & Hc & Hup & Hkv) Hn Hd.
  pose proof (check_rate_limit_overflow now path request u st r n d
                Hc Hup Hkv Hn Hd) as Hcheck.
  destruct (proxy_all_requests_stop _ _ _ _ _ _ _ Hcheck) as (Hr & _ & _).
  exists r. by rewrite Hr.
Qed.

End LimiterProperties.

Section WindowProperties.

Variable urljoin : string -> string -> string.
Variable urljoin_raises : string -> string -> bool.
Variable body_raises : Z -> Request -> bool.
Variable backend : Z -> BackendCall -> backend_outcome.

Lemma after_requests_snoc user reqs q st :
  after_requests urljoin urljoin_raises body_raises backend user
                 (reqs ++ [q]) st
  = (proxy_all_requests urljoin urljoin_raises body_raises backend
       q.1.1 q.1.2 q.2 user
       (after_requests urljoin urljoin_raises body_raises backend user
                       reqs st)).1.
Proof. unfold after_requests. by rewrite foldl_app. Qed.

Lemma in_window_later t0 (reqs : list (Z * string * Request)) k q :
  in_window t0 reqs -> reqs !! S k = Some q -> t0 <= q.1.1 < t0 + 60.
Proof.
  destruct reqs as [|q0 rest]; [done|]. intros [_ Hrest] Hq.
  exact (Forall_lookup_1 _ _ _ _ Hrest Hq).
Qed.

(** After [k >= 1] requests of one window that opened on a fresh key at
    [t0], the key holds the count [k] (capped by the store's integer
    range) and expires at [t0 + 60]. *)
Lemma window_invariant u st r t0 reqs :
  redis_client st = Some r -> reachable r = true ->
  redis_lookup t0 (rate_key u) r = None ->
  in_window t0 reqs ->
  forall k, (1 <= k <= length reqs)%nat ->
    counting u (Z.min (Z.of_nat k) int64_max) (t0 + 60)
      (after_requests urljoin urljoin_raises body_raises backend (Some u)
                      (take k reqs) st).
Proof.
  intros Hc Hup Hfresh Hwin. induction k as [|k IH]; intros [Hk1 Hk2]; [lia|].
  destruct (lookup_lt_is_Some_2 reqs k) as [q Hq]; [lia|].
  rewrite (take_S_r _ _ _ Hq), after_requests_snoc.
  destruct k as [|k].
  - destruct reqs as [|q0 rest]; [done|]. injection Hq as ->.
    destruct Hwin as [Ht0 _]. rewrite Ht0. cbn [take after_requests foldl].
    rewrite Z.min_l by (unfold int64_max; lia).
    change (Z.of_nat 1) with 1.
    by apply (fresh_request_admitted urljoin urljoin_raises body_raises backend
                t0 q.1.2 q.2 u st r).
  - specialize (IH ltac:(lia)).
    pose proof (in_window_later _ _ _ _ Hwin Hq) as [_ Hlt].
    destruct (Z.lt_ge_cases (Z.of_nat (S k)) int64_max) as [Hsmall|Hbig].
    + rewrite Z.min_l in IH by lia.
      replace (Z.min (Z.of_nat (S (S k))) int64_max)
        with (Z.of_nat (S k) + 1) by lia.
      by apply (live_request urljoin urljoin_raises body_raises backend
                  q.1.1 q.1.2 q.2 u _ _ _ IH ltac:(lia) Hlt).
    + rewrite Z.min_r in IH by lia. rewrite Z.min_r by lia.
      apply overflow_request; [done | lia | done].
Qed.

(** C5, as the code has it.  A principal's window opens on a fresh key at
    [t0], and [reqs] are its requests inside that window.  The request at
    position [k] (counted from 0) passes the limiter when [k] is below the
    tier's limit (10 for free, 100 for pro, 1000 for enterprise): it is then
    forwarded with one backend call when the backend URL can be built and the
    body read, and ends in the 500 error without a backend call otherwise.
    From position [limit] on the request is rejected with the 429 error
    without a backend call.  A request made once the window's 60 seconds have
    elapsed passes the limiter again, and the counter then reads 1. *)
Theorem fixed_window_limit u st r t0 reqs :
  redis_client st = Some r -> reachable r = true ->
  redis_lookup t0 (rate_key u) r = None ->
  in_window t0 reqs ->
  limit_of "free" = 10 /\ limit_of "pro" = 100 /\
  limit_of "enterprise" = 1000 /\
  (forall k q, reqs !! k = Some q ->
     let before := after_requests urljoin urljoin_raises body_raises backend
                                  (Some u) (take k reqs) st in
     let out := proxy_all_requests urljoin urljoin_raises body_raises backend
                                   q.1.1 q.1.2 q.2 (Some u) before in
     (Z.of_nat k < limit_of (tier u) ->
      let_through urljoin_raises body_raises q.1.1 q.1.2 q.2 before out) /\
     (limit_of (tier u) <= Z.of_nat k < int64_max -> rejected before out)) /\
  (reqs <> [] ->
   forall t' path' request', t0 + 60 <= t' ->
     let before := after_requests urljoin urljoin_raises body_raises backend
                                  (Some u) reqs st in
     let out := proxy_all_requests urljoin urljoin_raises body_raises backend
                                   t' path' request' (Some u) before in
     let_through urljoin_raises body_raises t' path' request' before out /\
     rate_counter t' u out.1 = Some 1).
Proof.
  intros Hc Hup Hfresh Hwin.
  destruct (limit_of_bounds (tier u)) as [Hlo Hhi].
  split; [reflexivity|]. split; [reflexivity|]. split; [reflexivity|]. split.
  - intros [|k] q Hq before out.
    + destruct reqs as [|q0 rest]; [done|]. injection Hq as ->.
      destruct Hwin as [Ht0 _]. subst out before.
      cbn [take after_requests foldl]. split; [|intros ?; lia].
      intros _.
      assert (redis_lookup q.1.1 (rate_key u) r = None) as Hfresh'
        by (by rewrite Ht0).
      by apply (fresh_request_admitted urljoin urljoin_raises body_raises
                  backend q.1.1 q.1.2 q.2 u st r).
    + pose proof (lookup_lt_Some _ _ _ Hq) as Hlen.
      pose proof (window_invariant u st r t0 reqs Hc Hup Hfresh Hwin (S k)
                    ltac:(lia)) as Hinv.
      fold before in Hinv.
      pose proof (in_window_later _ _ _ _ Hwin Hq) as [_ Hlt].
      split.
      * intros Hk. rewrite Z.min_l in Hinv by lia.
        destruct (live_request urljoin urljoin_raises body_raises backend
                    q.1.1 q.1.2 q.2 u before _ _ Hinv ltac:(lia) Hlt)
          as (_ & Hadm & _).
        apply Hadm. lia.
      * intros [Hk HkM]. rewrite Z.min_l in Hinv by lia.
        destruct (live_request urljoin urljoin_raises body_raises backend
                    q.1.1 q.1.2 q.2 u before _ _ Hinv ltac:(lia) Hlt)
          as (_ & _ & Hrej).
        apply Hrej. lia.
  - intros Hne t' path' request' Ht' before out.
    assert (1 <= length reqs)%nat as Hlen
      by (destruct reqs; [done | simpl; lia]).
    pose proof (window_invariant u st r t0 reqs Hc Hup Hfresh Hwin
                  (length reqs) ltac:(lia)) as Hinv.
    rewrite firstn_all in Hinv. fold before in Hinv.
    destruct Hinv as (r1 & Hc1 & Hup1 & Hkv1).
    assert (redis_lookup t' (rate_key u) r1 = None) as Hgone.
    { unfold redis_lookup. rewrite Hkv1. unfold live; simpl.
      by rewrite (proj2 (Z.ltb_ge t' (t0 + 60)) Ht'). }
    destruct (fresh_request_admitted urljoin urljoin_raises body_raises backend
                t' path' request' u before r1 Hc1 Hup1 Hgone)
      as [Hadm (r2 & Hc2 & Hup2 & Hkv2)].
    fold out in Hadm, Hc2. split; [exact Hadm|].
    unfold rate_counter. rewrite Hc2.
    unfold redis_lookup. rewrite Hkv2. unfold live; simpl.
    by rewrite (proj2 (Z.ltb_lt t' (t' + 60)) ltac:(lia)).
Qed.

End WindowProperties.

(** C5, as stated, fails: the first request of a free principal's window,
    on the path ["http://[::1"], is counted by the limiter (the counter
    reads 1) and is within the limit of 10, yet [urljoin] raises on that
    path, so the handler answers with the 500 error and no backend call is
    issued: the request is not forwarded. *)
Lemma unforwardable_request_within_limit :
  let st := initial_state (Some Demo.empty_store) in
  let out := proxy_all_requests Demo.urljoin Demo.urljoin_raises
               Demo.body_raises Demo.backend_up 0 "http://[::1" Demo.plain
               (Some Demo.alice) st in
  redis_client st = Some Demo.empty_store /\
  reachable Demo.empty_store = true /\
  redis_lookup 0 (rate_key Demo.alice) Demo.empty_store = None /\
  Z.of_nat 0 < limit_of (tier Demo.alice) /\
  rate_counter 0 Demo.alice out.1 = Some 1 /\
  out.2 = Raise (HTTPException 500 "Internal server error") /\
  backend_calls out.1 = [] /\
  ~ admitted st out.
Proof.
  cbv zeta.
  split; [reflexivity|]. split; [reflexivity|]. split; [reflexivity|].
  split; [reflexivity|]. split; [reflexivity|]. split; [reflexivity|].
  split; [reflexivity|].
  intros [[c Hc] _]. vm_compute in Hc. discriminate Hc.
Qed.

(** * The theorems at concrete inputs *)


Lemma backend_failure_outcomes_witness :
  call_issued Demo.urljoin_raises Demo.body_raises 0 "status" Demo.plain /\
  Demo.backend_slow 0 (backend_call Demo.urljoin "GET" "status" Demo.plain None)
  = TimeoutException /\
  (proxy_request Demo.urljoin Demo.urljoin_raises Demo.body_raises
                 Demo.backend_slow 0 "GET" "status" Demo.plain None
                 (initial_state None)).2
  = Raise (HTTPException 504 "Backend service timeout") /\
  Demo.backend_down 0 (backend_call Demo.urljoin "GET" "status" Demo.plain None)
  = RequestError /\
  (proxy_request Demo.urljoin Demo.urljoin_raises Demo.body_raises
                 Demo.backend_down 0 "GET" "status" Demo.plain None
                 (initial_state None)).2
  = Raise (HTTPException 502 "Backend service unavailable") /\
  backend_calls
    (proxy_request Demo.urljoin Demo.urljoin_raises Demo.body_raises
                   Demo.backend_slow 0 "GET" "status" Demo.plain None
                   (initial_state None)).1
  = [backend_call Demo.urljoin "GET" "status" Demo.plain None].
Proof.
  assert (call_issued Demo.urljoin_raises Demo.body_raises 0 "status"
                      Demo.plain) as Hgo by (split; reflexivity).
  destruct (backend_failure_outcomes Demo.urljoin Demo.urljoin_raises
              Demo.body_raises Demo.backend_slow 0 "GET" "status" Demo.plain
              None (initial_state None)) as (_ & _ & Hslow & _).
  destruct (Hslow Hgo) as (Hone & Htimeout & _).
  destruct (backend_failure_outcomes Demo.urljoin Demo.urljoin_raises
              Demo.body_raises Demo.backend_down 0 "GET" "status" Demo.plain
              None (initial_state None)) as (_ & _ & Hdown & _).
  destruct (Hdown Hgo) as (_ & _ & Hrefused).
  split; [exact Hgo|].
  split; [reflexivity|]. split; [exact (Htimeout eq_refl)|].
  split; [reflexivity|]. split; [exact (Hrefused eq_refl)|].
  exact Hone.
Defined.

Lemma injected_headers_witness :
  ("accept" ∉ hop_by_hop_headers) /\
  call_headers (backend_call Demo.urljoin "GET" "status" Demo.hopping
                             (Some Demo.alice)) !! "X-User-Tier"
  = Some "free" /\
  call_headers (backend_call Demo.urljoin "GET" "status" Demo.hopping
                             (Some Demo.alice)) !! "X-User-Username"
  = Some "alice" /\
  ("x-user-tier" ∉ hop_by_hop_headers) /\
  call_headers (backend_call Demo.urljoin "GET" "status" Demo.spoofing None)
    !! "x-user-tier"
  = req_headers Demo.spoofing !! "x-user-tier".
Proof.
  assert ("accept" ∉ hop_by_hop_headers) as Hacc by not_listed.
  assert ("x-user-tier" ∉ hop_by_hop_headers) as Hx by not_listed.
  destruct (injected_headers Demo.urljoin "GET" "status" Demo.hopping
              (Some Demo.alice)) as (Hsome & _).
  destruct (Hsome Demo.alice eq_refl) as (Htier & Hname & _).
  destruct (injected_headers Demo.urljoin "GET" "status" Demo.spoofing None)
    as (_ & Hnone).
  destruct (Hnone eq_refl) as (_ & Hkeep).
  split; [exact Hacc|]. split; [exact Htier|]. split; [exact Hname|].
  split; [exact Hx|]. exact (Hkeep _ Hx).
Defined.

Lemma bearer_tier_is_pro_witness :
  Demo.jwt_decode 0 "bob.jwt" = Some Demo.bob_claims /\
  Demo.bob_claims !! "sub" = Some (JStr "bob") /\
  get_current_user Demo.jwt_decode 0 "bob.jwt"
  = Ok (mkUser "bob" (Some "bob@example.com") "pro").
Proof.
  split; [reflexivity|]. split; [reflexivity|].
  exact (bearer_tier_is_pro Demo.jwt_decode 0 "bob.jwt" Demo.bob_claims "bob"
           eq_refl eq_refl).
Defined.

Lemma health_reports_last_poll_witness :
  Demo.probe 60 = ProbeException /\
  hr_backend_status
    (health_check 0 61
       (update_backend_status Demo.urljoin Demo.probe ([0; 30] ++ [60])
          (initial_state None))).2 = "unreachable" /\
  Demo.probe 120 = ProbeStatus 200 /\
  hr_backend_status
    (health_check 0 121
       (update_backend_status Demo.urljoin Demo.probe ([0; 30; 60; 90] ++ [120])
          (initial_state None))).2 = "healthy".
Proof.
  destruct (health_reports_last_poll Demo.urljoin Demo.probe [0; 30] 60 0 61
              (initial_state None)) as (_ & Hdown & _).
  destruct (health_reports_last_poll Demo.urljoin Demo.probe [0; 30; 60; 90]
              120 0 121 (initial_state None)) as (_ & _ & Hup & _).
  split; [reflexivity|]. split; [exact (Hdown eq_refl)|].
  split; [reflexivity|]. exact (Hup eq_refl).
Defined.

Lemma fixed_window_limit_witness :
  redis_client (initial_state (Some Demo.empty_store)) = Some Demo.empty_store /\
  reachable Demo.empty_store = true /\
  redis_lookup 0 (rate_key Demo.alice) Demo.empty_store = None /\
  in_window 0 Demo.burst /\
  call_issued Demo.urljoin_raises Demo.body_raises 1 "status" Demo.plain /\
  admitted
    (after_requests Demo.urljoin Demo.urljoin_raises Demo.body_raises
       Demo.backend_up
       (Some Demo.alice) (take 9 Demo.burst)
       (initial_state (Some Demo.empty_store)))
    (proxy_all_requests Demo.urljoin Demo.urljoin_raises Demo.body_raises
       Demo.backend_up
       1 "status" Demo.plain (Some Demo.alice)
       (after_requests Demo.urljoin Demo.urljoin_raises Demo.body_raises
          Demo.backend_up
          (Some Demo.alice) (take 9 Demo.burst)
          (initial_state (Some Demo.empty_store)))) /\
  rejected
    (after_requests Demo.urljoin Demo.urljoin_raises Demo.body_raises
       Demo.backend_up
       (Some Demo.alice) (take 10 Demo.burst)
       (initial_state (Some Demo.empty_store)))
    (proxy_all_requests Demo.urljoin Demo.urljoin_raises Demo.body_raises
       Demo.backend_up
       1 "status" Demo.plain (Some Demo.alice)
       (after_requests Demo.urljoin Demo.urljoin_raises Demo.body_raises
          Demo.backend_up
          (Some Demo.alice) (take 10 Demo.burst)
          (initial_state (Some Demo.empty_store)))) /\
  admitted
    (after_requests Demo.urljoin Demo.urljoin_raises Demo.body_raises
       Demo.backend_up
       (Some Demo.alice) Demo.burst (initial_state (Some Demo.empty_store)))
    (proxy_all_requests Demo.urljoin Demo.urljoin_raises Demo.body_raises
       Demo.backend_up
       61 "status" Demo.plain (Some Demo.alice)
       (after_requests Demo.urljoin Demo.urljoin_raises Demo.body_raises
          Demo.backend_up
          (Some Demo.alice) Demo.burst
          (initial_state (Some Demo.empty_store)))) /\
  rate_counter 61 Demo.alice
    (proxy_all_requests Demo.urljoin Demo.urljoin_raises Demo.body_raises
       Demo.backend_up
       61 "status" Demo.plain (Some Demo.alice)
       (after_requests Demo.urljoin Demo.urljoin_raises Demo.body_raises
          Demo.backend_up
          (Some Demo.alice) Demo.burst
          (initial_state (Some Demo.empty_store)))).1
  = Some 1.
Proof.
  assert (in_window 0 Demo.burst) as Hwin.
  { split; [reflexivity|].
    unfold Demo.burst; cbn [replicate].
    repeat (apply List.Forall_cons; [simpl; lia|]). apply List.Forall_nil. }
  assert (forall t, call_issued Demo.urljoin_raises Demo.body_raises t
                                "status" Demo.plain) as Hgo
    by (intros t; split; reflexivity).
  destruct (fixed_window_limit Demo.urljoin Demo.urljoin_raises Demo.body_raises
              Demo.backend_up Demo.alice
              (initial_state (Some Demo.empty_store)) Demo.empty_store 0
              Demo.burst eq_refl eq_refl eq_refl Hwin)
    as (_ & _ & _ & Hpos & Hlater).
  assert (limit_of (tier Demo.alice) = 10) as Hlimit by reflexivity.
  destruct (Hpos 9%nat (1, "status", Demo.plain) eq_refl) as [Hadm _].
  destruct (Hpos 10%nat (1, "status", Demo.plain) eq_refl) as [_ Hrej].
  destruct (Hlater ltac:(discriminate) 61 "status" Demo.plain ltac:(lia))
    as [Hagain Hone].
  split; [reflexivity|]. split; [reflexivity|]. split; [reflexivity|].
  split; [exact Hwin|]. split; [exact (Hgo 1)|].
  split; [apply Hadm; [rewrite Hlimit; lia | exact (Hgo 1)]|].
  split; [apply Hrej; rewrite Hlimit; unfold int64_max; lia|].
  split; [apply Hagain; exact (Hgo 61) | exact Hone].
Defined.

(** * Further properties of the gateway *)

(** ** Credentials *)

Lemma split_no_sep (sep : ascii) (s : string) :
  PyStr.has_char sep s = false -> Py.split sep s = [s].
Proof.
  induction s as [|c s IH]; [done|]. simpl.
  intros [Hc Hs]%orb_false_iff. rewrite Hc, (IH Hs). done.
Qed.

Lemma split_first_word (sep : ascii) (t rest : string) :
  PyStr.has_char sep t = false ->
  rest = EmptyString \/ (exists junk, rest = String sep junk) ->
  exists more, Py.split sep (t +:+ rest) = t :: more.
Proof.
  intros Ht Hrest. induction t as [|c t IH]; simpl in *.
  - destruct Hrest as [->|[junk ->]]; simpl; [by eexists|].
    rewrite Ascii.eqb_refl. by eexists.
  - apply orb_false_iff in Ht as [Hc Ht]. rewrite Hc.
    destruct (IH Ht) as [more ->]. by eexists.
Qed.

Lemma bearer_unfold (x : string) :
  "Bearer " +:+ x
  = String "B" (String "e" (String "a" (String "r" (String "e" (String "r"
      (String " " x)))))).
Proof. reflexivity. Qed.

Lemma bearer_accepted (x : string) :
  Py.truthy ("Bearer " +:+ x) = true /\
  Py.startswith ("Bearer " +:+ x) "Bearer " = true.
Proof.
  rewrite bearer_unfold. split; [reflexivity|].
  unfold Py.startswith. simpl. by destruct x.
Qed.

Lemma bearer_token (t rest : string) :
  PyStr.has_char " " t = false ->
  rest = EmptyString \/ (exists junk, rest = String " " junk) ->
  Py.split " " ("Bearer " +:+ (t +:+ rest)) !! 1%nat = Some t.
Proof.
  intros Ht Hrest.
  destruct (split_first_word " " t rest Ht Hrest) as [more Hsplit].
  rewrite bearer_unfold. simpl. rewrite Hsplit. reflexivity.
Qed.

Section CredentialProperties.

Variable jwt_decode : Z -> string -> option (gmap string json).

(** Every way [authenticate_request] can end. *)
Lemma authenticate_request_outcomes now client request :
  (exists user, authenticate_request jwt_decode now client request = Ok user) \/
  authenticate_request jwt_decode now client request
  = Raise (HTTPException 401 "API key expired") \/
  authenticate_request jwt_decode now client request
  = Raise (OtherException "TypeError").
Proof.
  unfold authenticate_request.
  pose proof (jwt_fallback_returns jwt_decode now request) as Hfb.
  destruct (get_api_key_from_header request) as [k|]; [|by left].
  destruct (Py.truthy k); [|by left].
  destruct (validate_api_key now client k) as [info|]; [|by left].
  destruct (enabled info); [|by left].
  destruct (expires_at info) as [[e|e]|]; [|by right; right|left; by eexists].
  destruct (e <? now); [by right; left | left; by eexists].
Qed.

(** X1. A request presenting the key of a stored record that is enabled and
    whose expiry, if it has one, is a naive timestamp not before the clock
    reading is resolved to the principal [api_key_<name>] with the record's
    tier, whatever the Authorization header holds. *)
Theorem valid_key_authenticates now r request api_key (info : APIKey) d :
  get_api_key_from_header request = Some api_key ->
  Py.truthy api_key = true ->
  reachable r = true ->
  kv r !! ("api_key:" +:+ api_key) = Some (RRecord info, d) ->
  live now (RRecord info, d) = true ->
  enabled info = true ->
  (forall e, expires_at info = Some e -> exists t, e = Naive t /\ now <= t) ->
  authenticate_request jwt_decode now (Some r) request
  = Ok (Some (mkUser ("api_key_" +:+ name info) None (key_tier info))).
Proof.
  intros Hkey Htruthy Hup Hkv Hlive Hen Hexp.
  unfold authenticate_request. rewrite Hkey, Htruthy.
  unfold validate_api_key, redis_get, redis_lookup.
  rewrite Hup, Hkv, Hlive. simpl. rewrite Hen.
  destruct (expires_at info) as [e|]; [|done].
  destruct (Hexp e eq_refl) as (t & -> & Ht).
  by rewrite (proj2 (Z.ltb_ge t now) Ht).
Qed.

(** X2. For a request presenting the key of a stored, enabled record with
    an expiry: when the expiry is a naive timestamp, authentication fails
    with the 401 error "API key expired" exactly when the expiry is before
    the clock reading, and a key whose expiry equals the clock reading is
    still accepted; when the expiry is timezone-aware, authentication raises
    [TypeError], whatever the two timestamps are. *)
Theorem key_expiry_decides now r request api_key (info : APIKey) d expiry :
  get_api_key_from_header request = Some api_key ->
  Py.truthy api_key = true ->
  reachable r = true ->
  kv r !! ("api_key:" +:+ api_key) = Some (RRecord info, d) ->
  live now (RRecord info, d) = true ->
  enabled info = true ->
  expires_at info = Some expiry ->
  match expiry with
  | Naive t =>
      (authenticate_request jwt_decode now (Some r) request
       = Raise (HTTPException 401 "API key expired") <-> t < now) /\
      (t = now ->
       authenticate_request jwt_decode now (Some r) request
       = Ok (Some (mkUser ("api_key_" +:+ name info) None (key_tier info))))
  | Aware _ =>
      authenticate_request jwt_decode now (Some r) request
      = Raise (OtherException "TypeError")
  end.
Proof.
  intros Hkey Htruthy Hup Hkv Hlive Hen Hexp.
  unfold authenticate_request. rewrite Hkey, Htruthy.
  unfold validate_api_key, redis_get, redis_lookup.
  rewrite Hup, Hkv, Hlive. simpl. rewrite Hen, Hexp.
  destruct expiry as [t|t]; [|done].
  destruct (Z.ltb_spec t now) as [Hlt|Hge].
  - split; [done|]. intros ->. lia.
  - split; [|done]. split; [done|]. intros ?; lia.
Qed.

(** X8. [get_current_user] returns a principal only for a token that
    verifies and has a string subject, and the principal then carries that
    subject and the tier "pro".  A token that does not verify is answered
    with the 401 error, never with the verifier's own exception. *)
Theorem get_current_user_outcomes now token :
  match get_current_user jwt_decode now token with
  | Ok u =>
      exists payload subject,
        jwt_decode now token = Some payload /\
        payload !! "sub" = Some (JStr subject) /\
        u = mkUser subject (Some (subject +:+ "@example.com")) "pro"
  | Raise e =>
      e = credentials_exception \/ e = OtherException "pydantic.ValidationError"
  end /\
  (jwt_decode now token = None ->
   get_current_user jwt_decode now token = Raise credentials_exception).
Proof.
  unfold get_current_user, get_current_user_try.
  destruct (jwt_decode now token) as [payload|]; simpl; [|by split; [left|]].
  split; [|done].
  destruct (payload !! "sub") as [[| | |subject]|] eqn:Hsub; simpl; auto.
  by exists payload, subject.
Qed.

(** X3. [authenticate_request] fails in two ways only, both for a request
    that presents the key of a stored, enabled record with an expiry: with
    the 401 error "API key expired" when the expiry is a naive timestamp
    before the clock reading, and with [TypeError] when the expiry is
    timezone-aware. *)
Theorem authentication_fails_only_on_stored_expiry now client request e :
  authenticate_request jwt_decode now client request = Raise e ->
  exists r api_key info d expiry,
    client = Some r /\
    get_api_key_from_header request = Some api_key /\
    kv r !! ("api_key:" +:+ api_key) = Some (RRecord info, d) /\
    enabled info = true /\ expires_at info = Some expiry /\
    match expiry with
    | Naive t => t < now /\ e = HTTPException 401 "API key expired"
    | Aware _ => e = OtherException "TypeError"
    end.
Proof.
  unfold authenticate_request.
  pose proof (jwt_fallback_returns jwt_decode now request) as [fb Hfb].
  rewrite Hfb.
  destruct (get_api_key_from_header request) as [k|]; [|done].
  destruct (Py.truthy k); [|done].
  destruct client as [r|]; [|done]. simpl.
  unfold redis_get, redis_lookup.
  destruct (reachable r); [|done].
  destruct (kv r !! ("api_key:" +:+ k)) as [[v d]|] eqn:Hkv; [|done].
  destruct (live now (v, d)); [|done]. simpl.
  destruct v as [n|info|raw]; [done| |done].
  destruct (enabled info) eqn:Hen; [|done].
  destruct (expires_at info) as [[t|t]|] eqn:Hexp; [| |done].
  - destruct (Z.ltb_spec t now) as [Hlt|_]; [|done].
    intros [= <-]. by exists r, k, info, d, (Naive t).
  - intros [= <-]. by exists r, k, info, d, (Aware t).
Qed.

(** X4. The API key is the value of the [x-api-key] header when that value
    is not empty, and the [api_key] query parameter otherwise. *)
Theorem api_key_header_before_query request :
  (forall h, req_headers request !! "x-api-key" = Some h -> h <> EmptyString ->
             get_api_key_from_header request = Some h) /\
  (req_headers request !! "x-api-key" = None \/
   req_headers request !! "x-api-key" = Some EmptyString ->
   get_api_key_from_header request = query_params request !! "api_key").
Proof.
  unfold get_api_key_from_header.
  change (Py.lower settings.api_key_header) with "x-api-key".
  change settings.api_key_query with "api_key".
  split.
  - intros h -> Hne. simpl. unfold Py.truthy.
    by rewrite (proj2 (String.eqb_neq h EmptyString) Hne).
  - by intros [-> | ->].
Qed.

(** X5. When the lookup of the presented key gives no record (the store
    cannot be reached, the key is absent or has expired in the store, or its
    value is no API-key record) the request is resolved by the bearer-token
    fallback instead of failing. *)
Theorem failed_lookup_falls_through now r request api_key :
  get_api_key_from_header request = Some api_key ->
  reachable r = false \/
  redis_lookup now ("api_key:" +:+ api_key) r = None \/
  (exists n d, redis_lookup now ("api_key:" +:+ api_key) r = Some (RInt n, d)) \/
  (exists s d, redis_lookup now ("api_key:" +:+ api_key) r = Some (RRaw s, d)) ->
  validate_api_key now (Some r) api_key = None /\
  authenticate_request jwt_decode now (Some r) request
  = jwt_fallback jwt_decode now request.
Proof.
  intros Hkey Hcase.
  assert (validate_api_key now (Some r) api_key = None) as Hnone.
  { unfold validate_api_key, redis_get.
    destruct Hcase as [-> | [Hl | [(n & d & Hl) | (s & d & Hl)]]]; [done|..];
      destruct (reachable r); try done; by rewrite Hl. }
  split; [done|].
  unfold authenticate_request. rewrite Hkey, Hnone.
  by destruct (Py.truthy api_key).
Qed.

(** X6. Without an API key, a request whose Authorization header is absent
    or does not start with "Bearer " is anonymous; the token verifier has no
    say in it. *)
Theorem non_bearer_is_anonymous now client request :
  get_api_key_from_header request = None ->
  (forall h, req_headers request !! "authorization" = Some h ->
             Py.startswith h "Bearer " = false) ->
  authenticate_request jwt_decode now client request = Ok None.
Proof.
  intros Hkey Hauth. unfold authenticate_request. rewrite Hkey.
  unfold jwt_fallback, jwt_fallback_try.
  destruct (req_headers request !! "authorization") as [h|]; [|done].
  rewrite (Hauth h eq_refl). by rewrite andb_false_r.
Qed.

(** X7. Without an API key, the token of an Authorization header is the
    text between "Bearer " and the next space; when it verifies and has a
    string subject, the request is resolved to the principal of that subject
    with tier "pro", and what follows the token is ignored. *)
Theorem bearer_token_is_second_word now client request t rest payload subject :
  get_api_key_from_header request = None ->
  req_headers request !! "authorization" = Some ("Bearer " +:+ (t +:+ rest)) ->
  PyStr.has_char " " t = false ->
  rest = EmptyString \/ (exists junk, rest = String " " junk) ->
  jwt_decode now t = Some payload ->
  payload !! "sub" = Some (JStr subject) ->
  authenticate_request jwt_decode now client request
  = Ok (Some (mkUser subject (Some (subject +:+ "@example.com")) "pro")).
Proof.
  intros Hkey Hauth Ht Hrest Hdec Hsub.
  unfold authenticate_request. rewrite Hkey.
  unfold jwt_fallback, jwt_fallback_try. rewrite Hauth.
  rewrite (bearer_token t rest Ht Hrest).
  destruct (bearer_accepted (t +:+ rest)) as [-> ->].
  simpl. unfold get_current_user, get_current_user_try.
  rewrite Hdec. simpl. by rewrite Hsub.
Qed.

End CredentialProperties.

(** ** The catch-all handler *)

Section HandlerProperties.

Variable jwt_decode : Z -> string -> option (gmap string json).
Variable urljoin : string -> string -> string.
Variable urljoin_raises : string -> string -> bool.
Variable body_raises : Z -> Request -> bool.
Variable backend : Z -> BackendCall -> backend_outcome.

(** The handler in terms of the limiter's verdict, of what happens before
    the backend call and of the backend's outcome. *)
Lemma proxy_all_requests_cases now path request user st :
  let lim := check_rate_limit now path request user st in
  let call := backend_call urljoin (method request) path request user in
  let sent := log_call (CallBackend call) lim.1 in
  proxy_all_requests urljoin urljoin_raises body_raises backend now path
                     request user st
  = match lim.2 with
    | Raise (HTTPException code detail) =>
        (lim.1, Raise (HTTPException code detail))
    | Raise _ =>
        (count_request (method request) path "500" lim.1,
         Raise (HTTPException 500 "Internal server error"))
    | Ok _ =>
        if urljoin_raises settings.backend_url path || body_raises now request
        then (count_request (method request) path "500" lim.1,
              Raise (HTTPException 500 "Internal server error"))
        else
        match backend now call with
        | Responded r =>
            (observe_latency (method request) path
               (count_request (method request) path
                              (Py.str (status_code r)) sent),
             Ok {| content := content r; status_code := status_code r;
                   headers := pop_hop_by_hop (headers r) |})
        | TimeoutException =>
            (sent, Raise (HTTPException 504 "Backend service timeout"))
        | RequestError =>
            (sent, Raise (HTTPException 502 "Backend service unavailable"))
        | ClientCrash =>
            (count_request (method request) path "500" sent,
             Raise (HTTPException 500 "Internal server error"))
        end
    end.
Proof.
  simpl. unfold proxy_all_requests, proxy_all_requests_try.
  destruct (check_rate_limit now path request user st) as [st1 [[]|e]]; simpl.
  - unfold proxy_request.
    destruct (urljoin_raises _ _); [done|].
    destruct (body_raises _ _); [done|]. simpl.
    by destruct (backend now _).
  - by destruct e.
Qed.

(** X9. Every request on the catch-all route ends in one of three ways.
    Authentication raised, with the 401 error "API key expired" or with
    [TypeError], and nothing was changed.  Or the handler ended without a
    backend call in an HTTP error with status 429 or 500.  Or exactly one
    backend call was issued and the outcome is a response or an HTTP error
    with status 500, 502 or 504.  The handler itself lets no exception out
    that is not an HTTP error. *)
Theorem serve_outcomes now path request st :
  let out := serve jwt_decode urljoin urljoin_raises body_raises backend now
                   path request st in
  (out = (st, Raise (HTTPException 401 "API key expired")) \/
   out = (st, Raise (OtherException "TypeError"))) \/
  (backend_calls out.1 = backend_calls st /\
   exists code detail, out.2 = Raise (HTTPException code detail) /\
                       code ∈ [429; 500]) \/
  (exists c, backend_calls out.1 = backend_calls st ++ [c] /\
     ((exists response, out.2 = Ok response) \/
      exists code detail, out.2 = Raise (HTTPException code detail) /\
                          code ∈ [500; 502; 504])).
Proof.
  simpl. unfold serve.
  destruct (authenticate_request_outcomes jwt_decode now (redis_client st)
              request) as [[user ->] | [-> | ->]];
    [|by left; left|by left; right].
  right. rewrite proxy_all_requests_cases.
  pose proof (check_rate_limit_frame now path request user st)
    as (Hlog & _ & _ & _ & Hres). simpl in Hlog, Hres.
  assert (backend_calls (check_rate_limit now path request user st).1
          = backend_calls st) as Hcalls
    by (unfold backend_calls; by rewrite Hlog).
  destruct (check_rate_limit now path request user st) as [st1 [[]|e]];
    simpl in *.
  - destruct (urljoin_raises _ _ || body_raises _ _); simpl.
    { left. split; [done|]. do 2 eexists. split; [done|]. set_solver. }
    right. eexists.
    destruct (backend now _); simpl;
      (split; [unfold backend_calls in Hcalls |- *; simpl;
               rewrite omap_app, Hcalls; reflexivity|]).
    + left. by eexists.
    + right. do 2 eexists. split; [done|]. set_solver.
    + right. do 2 eexists. split; [done|]. set_solver.
    + right. do 2 eexists. split; [done|]. set_solver.
  - left. destruct Hres as [-> | ->]; simpl.
    + split; [done|]. do 2 eexists. split; [done|]. set_solver.
    + split; [done|]. do 2 eexists. split; [done|]. set_solver.
Qed.

(** X10. A request without a principal is never counted against a quota:
    the store stays as it is and the outcome is never the 429 error.  The
    request is forwarded with exactly one backend call when the backend URL
    can be built and the body read, and ends in the 500 error without a
    backend call otherwise. *)
Theorem anonymous_never_limited now path request st :
  let out := proxy_all_requests urljoin urljoin_raises body_raises backend now
                                path request None st in
  redis_client out.1 = redis_client st /\
  let_through urljoin_raises body_raises now path request st out /\
  (call_issued urljoin_raises body_raises now path request ->
   backend_calls out.1
   = backend_calls st
     ++ [backend_call urljoin (method request) path request None]).
Proof.
  destruct (proxy_all_requests_pass urljoin urljoin_raises body_raises backend
              now path request None st st eq_refl) as [Hr Hthrough].
  simpl. split; [exact Hr|]. split; [exact Hthrough|].
  intros Hgo. rewrite proxy_all_requests_cases. simpl.
  destruct Hgo as [-> ->]. simpl.
  destruct (backend now _); simpl;
    unfold backend_calls; simpl; by rewrite omap_app.
Qed.

(** Without a client the process lets the request through, and is still
    without a client afterwards. *)
Lemma serve_without_client now path request st :
  redis_client st = None ->
  let out := serve jwt_decode urljoin urljoin_raises body_raises backend now
                   path request st in
  redis_client out.1 = None /\
  let_through urljoin_raises body_raises now path request st out.
Proof.
  intros Hnone. simpl. unfold serve. rewrite Hnone.
  assert (exists user, authenticate_request jwt_decode now None request
                       = Ok user) as [user Hu].
  { unfold authenticate_request.
    destruct (jwt_fallback_returns jwt_decode now request) as [fb ->].
    destruct (get_api_key_from_header request) as [k|]; [|by eexists].
    destruct (Py.truthy k); by eexists. }
  rewrite Hu.
  pose proof (check_rate_limit_frame now path request user st)
    as (_ & _ & _ & Hpass & _).
  destruct (proxy_all_requests_pass urljoin urljoin_raises body_raises backend
              now path request user st st (Hpass Hnone)) as (Hr & Hthrough).
  split; [by rewrite Hr | exact Hthrough].
Qed.

(** X11. When the store cannot be reached at startup the process runs
    without a client for good: whatever requests follow, the client is never
    set again, and no request is rejected by the limiter.  Each request
    causes at most one backend call, and exactly one when its backend URL can
    be built and its body read. *)
Theorem startup_without_store_never_limits r reqs :
  let st := after_serving jwt_decode urljoin urljoin_raises body_raises backend
                          reqs (lifespan_startup false r) in
  redis_client st = None /\
  (forall now path request,
     passed (serve jwt_decode urljoin urljoin_raises body_raises backend now
                   path request st)) /\
  (length (backend_calls st) <= length reqs)%nat /\
  (Forall (fun q => call_issued urljoin_raises body_raises q.1.1 q.1.2 q.2)
          reqs ->
   length (backend_calls st) = length reqs).
Proof.
  simpl. unfold after_serving.
  assert (forall st0, redis_client st0 = None ->
            let st := foldl (fun st q =>
                         (serve jwt_decode urljoin urljoin_raises body_raises
                                backend q.1.1 q.1.2 q.2 st).1)
                        st0 reqs in
            redis_client st = None /\
            (length (backend_calls st)
             <= length (backend_calls st0) + length reqs)%nat /\
            (Forall (fun q => call_issued urljoin_raises body_raises
                                          q.1.1 q.1.2 q.2) reqs ->
             length (backend_calls st)
             = (length (backend_calls st0) + length reqs)%nat)) as Hgen.
  { induction reqs as [|q reqs IH]; intros st0 Hnone; simpl.
    - split; [done|]. split; [lia|]. intros _. lia.
    - destruct (serve_without_client q.1.1 q.1.2 q.2 st0 Hnone)
        as (Hnone' & _ & Hgo & Hno).
      destruct (IH _ Hnone') as (Hr & Hle & Heq). split; [done|].
      destruct (call_issued_dec urljoin_raises body_raises q.1.1 q.1.2 q.2)
        as [Hyes|Hnot].
      + destruct (Hgo Hyes) as [[c Hc] _].
        rewrite Hc, length_app in Hle, Heq. simpl in Hle, Heq.
        split; [lia|]. intros Hall. apply Forall_cons in Hall as [_ Hall].
        specialize (Heq Hall). lia.
      + destruct (Hno Hnot) as [_ Hc]. rewrite Hc in Hle.
        split; [lia|]. intros Hall. apply Forall_cons in Hall as [Hq _].
        by destruct Hnot. }
  destruct (Hgen (lifespan_startup false r) eq_refl) as (Hnone & Hle & Heq).
  split; [exact Hnone|]. split.
  - intros now path request.
    by destruct (serve_without_client now path request _ Hnone)
      as (_ & Hpassed & _).
  - split; [exact Hle | exact Heq].
Qed.

(** X12. When the process has a client but the store does not answer, the
    request of a resolved principal is not forwarded: it ends with the 500
    error, which is counted under the status label "500". *)
Theorem store_outage_is_internal_error now path request u st r :
  redis_client st = Some r -> reachable r = false ->
  let out := proxy_all_requests urljoin urljoin_raises body_raises backend now
                                path request (Some u) st in
  out.2 = Raise (HTTPException 500 "Internal server error") /\
  backend_calls out.1 = backend_calls st /\
  counted (method request) path "500" out.1
  = S (counted (method request) path "500" st).
Proof.
  intros Hc Hdown. simpl.
  unfold proxy_all_requests, proxy_all_requests_try, check_rate_limit,
    redis_incr.
  rewrite Hc, Hdown. simpl. split; [done|]. split; [done|].
  unfold counted; simpl. by rewrite lookup_insert_eq.
Qed.

(** X14. A request rejected for exceeding the limit still counts: the
    counter goes up by one with its expiry unchanged, the counter of the
    status label "429" goes up by one, no latency is observed and no backend
    call is issued. *)
Theorem rejected_request_is_counted now path request u st n d :
  counting u n d st ->
  limit_of (tier u) <= n < int64_max -> now < d ->
  let out := proxy_all_requests urljoin urljoin_raises body_raises backend now
                                path request (Some u) st in
  out.2 = Raise (HTTPException 429 "Rate limit exceeded") /\
  counting u (n + 1) d out.1 /\
  counted (method request) path "429" out.1
  = S (counted (method request) path "429" st) /\
  REQUEST_LATENCY out.1 = REQUEST_LATENCY st /\
  backend_calls out.1 = backend_calls st.
Proof.
  intros (r & Hc & Hup & Hkv) [Hlim HnM] Hd. simpl.
  destruct (limit_of_bounds (tier u)) as [Hlo _].
  pose proof (check_rate_limit_live now path request u st r n d Hc Hup Hkv
                ltac:(lia) Hd) as Hcheck. cbv zeta in Hcheck.
  rewrite (proj2 (Z.ltb_lt (limit_of (tier u)) (n + 1)) ltac:(lia)) in Hcheck.
  rewrite proxy_all_requests_cases, Hcheck. simpl.
  split; [done|]. split.
  { eexists. split; [reflexivity|]. split; [done|]. apply lookup_insert_eq. }
  split; [|done]. unfold counted; simpl. by rewrite lookup_insert_eq.
Qed.

(** X15. When the limiter lets a request pass, the backend call is issued
    and the backend answers, the caller gets the backend's status and body,
    the counter labelled with the method, the path and that status goes up
    by one, every other counter stays, and one latency observation is
    added. *)
Theorem answered_request_is_counted now path request user st st1 r :
  check_rate_limit now path request user st = (st1, Ok tt) ->
  call_issued urljoin_raises body_raises now path request ->
  backend now (backend_call urljoin (method request) path request user)
  = Responded r ->
  let out := proxy_all_requests urljoin urljoin_raises body_raises backend now
                                path request user st in
  (exists response, out.2 = Ok response /\
     status_code response = status_code r /\ content response = content r) /\
  counted (method request) path (Py.str (status_code r)) out.1
  = S (counted (method request) path (Py.str (status_code r)) st) /\
  (forall m e s, (m, e, s) <> (method request, path, Py.str (status_code r)) ->
                 counted m e s out.1 = counted m e s st) /\
  REQUEST_LATENCY out.1 = REQUEST_LATENCY st ++ [(method request, path)].
Proof.
  intros Hpass [Hurl Hbody] Hb. simpl.
  pose proof (check_rate_limit_frame now path request user st)
    as (_ & _ & Hlat & _ & Hcount). rewrite Hpass in Hlat, Hcount.
  simpl in Hlat, Hcount.
  rewrite proxy_all_requests_cases, Hpass. simpl.
  rewrite Hurl, Hbody, Hb. simpl.
  split; [by eexists|]. unfold counted; simpl. rewrite Hcount, Hlat.
  split; [by rewrite lookup_insert_eq|]. split; [|done].
  intros m e s Hne. by rewrite lookup_insert_ne.
Qed.

(** X16. Handling requests never writes the backend health state: after
    any requests [backend_status] is what it was. *)
Theorem requests_keep_backend_status reqs st :
  backend_status (after_serving jwt_decode urljoin urljoin_raises body_raises
                                backend reqs st)
  = backend_status st.
Proof.
  unfold after_serving. revert st.
  induction reqs as [|q reqs IH]; intros st; simpl; [done|].
  rewrite IH. unfold serve.
  destruct (authenticate_request jwt_decode q.1.1 (redis_client st) q.2)
    as [user|e]; [|done].
  rewrite proxy_all_requests_cases.
  pose proof (check_rate_limit_frame q.1.1 q.1.2 q.2 user st)
    as (_ & Hbs & _). simpl in Hbs.
  destruct (check_rate_limit q.1.1 q.1.2 q.2 user st) as [st1 [[]|e]];
    simpl in *.
  - destruct (urljoin_raises _ _ || body_raises _ _); [done|].
    by destruct (backend q.1.1 _).
  - by destruct e.
Qed.

End HandlerProperties.

(** X13. What a request does to the store is decided before the backend
    URL is built and the backend is called: the store after the request is
    the same in any two worlds, so the count is charged whatever the
    backend's outcome. *)
Theorem store_independent_of_backend
    (urljoin urljoin' : string -> string -> string)
    (urljoin_raises urljoin_raises' : string -> string -> bool)
    (body_raises body_raises' : Z -> Request -> bool)
    (backend backend' : Z -> BackendCall -> backend_outcome)
    now path request user st :
  redis_client (proxy_all_requests urljoin urljoin_raises body_raises backend
                                   now path request user st).1
  = redis_client
      (proxy_all_requests urljoin' urljoin_raises' body_raises' backend'
                          now path request user st).1.
Proof.
  rewrite (proxy_all_requests_cases urljoin urljoin_raises body_raises backend),
    (proxy_all_requests_cases urljoin' urljoin_raises' body_raises' backend').
  destruct (check_rate_limit now path request user st) as [st1 [[]|e]];
    cbn [fst snd].
  - destruct (urljoin_raises _ _ || body_raises _ _),
      (urljoin_raises' _ _ || body_raises' _ _),
      (backend now
         (backend_call urljoin (method request) path request user)),
      (backend' now
         (backend_call urljoin' (method request) path request user));
      reflexivity.
  - by destruct e.
Qed.

(** X17. A tier other than "pro" and "enterprise" has the limit of the
    free tier, 10 requests per window, and no tier has a lower limit. *)
Theorem unknown_tier_has_free_limit (t : string) :
  (t <> "pro" -> t <> "enterprise" -> limit_of t = 10) /\ 10 <= limit_of t.
Proof.
  split; [|apply limit_of_bounds].
  intros Hp He. unfold limit_of, tier_limits.
  destruct (decide (t = "free")) as [->|Hf]; [done|].
  by rewrite !lookup_insert_ne.
Qed.

(** ** Health polling *)

Section PollingProperties.

Variable urljoin : string -> string -> string.
Variable probe : Z -> probe_outcome.

(** X18. A probe is reported "healthy" exactly when the backend answered
    with status 200, "unreachable" exactly when the probe raised, and
    "unhealthy" exactly when the backend answered with another status. *)
Theorem health_verdicts now :
  (check_backend_health probe now = "healthy" <-> probe now = ProbeStatus 200) /\
  (check_backend_health probe now = "unreachable" <-> probe now = ProbeException) /\
  (check_backend_health probe now = "unhealthy"
   <-> exists code, probe now = ProbeStatus code /\ code <> 200).
Proof.
  unfold check_backend_health.
  destruct (probe now) as [code|]; [destruct (Z.eqb_spec code 200) as [->|Hne]|].
  - repeat split; try done. intros (c & [= <-] & Hc). done.
  - repeat split; try done.
    + intros [= ->]. done.
    + intros _. by exists code.
  - repeat split; try done. intros (c & [=] & _).
Qed.

Lemma update_backend_status_frame polls st :
  let polled := update_backend_status urljoin probe polls st in
  backend_calls polled = backend_calls st /\
  length (net_log polled) = (length (net_log st) + length polls)%nat /\
  redis_client polled = redis_client st /\
  REQUEST_COUNT polled = REQUEST_COUNT st /\
  REQUEST_LATENCY polled = REQUEST_LATENCY st.
Proof.
  simpl. unfold update_backend_status. revert st.
  induction polls as [|t polls IH]; intros st; simpl.
  - repeat split. lia.
  - destruct (IH (update_backend_status_step urljoin probe st t))
      as (Hcalls & Hlen & Hr & Hc & Hl).
    rewrite Hcalls, Hlen, Hr, Hc, Hl.
    unfold update_backend_status_step, backend_calls; simpl.
    rewrite omap_app, length_app; simpl. rewrite app_nil_r.
    repeat split. lia.
  Qed.

(** X19. The background loop issues one health probe per turn and no
    backend call, and it leaves the store client, the request counters and
    the latency observations as they are. *)
Theorem polling_only_probes polls st :
  let polled := update_backend_status urljoin probe polls st in
  backend_calls polled = backend_calls st /\
  length (net_log polled) = (length (net_log st) + length polls)%nat /\
  redis_client polled = redis_client st /\
  REQUEST_COUNT polled = REQUEST_COUNT st /\
  REQUEST_LATENCY polled = REQUEST_LATENCY st.
Proof. apply update_backend_status_frame. Qed.

(** X20. The health state of a started process is "unknown" until the first
    poll has run, and from then on it is one of "healthy", "unhealthy" and
    "unreachable", never "unknown" again. *)
Theorem backend_status_values polls client :
  let polled := update_backend_status urljoin probe polls (initial_state client) in
  (polls = [] -> backend_status polled = "unknown") /\
  (polls <> [] ->
   backend_status polled ∈ ["healthy"; "unhealthy"; "unreachable"] /\
   backend_status polled <> "unknown").
Proof.
  simpl. split; [by intros ->|]. intros Hne.
  destruct (exists_last Hne) as (polls' & t & ->).
  rewrite update_backend_status_snoc. simpl. unfold check_backend_health.
  destruct (probe t) as [code|]; [destruct (code =? 200)|];
    (split; [set_solver | done]).
Qed.

End PollingProperties.

(** ** The WebSocket proxy *)

Lemma remove_first_last (x : nat) (l : list nat) :
  x ∉ l -> PyStr.remove_first x (l ++ [x]) = l.
Proof.
  induction l as [|y l IH]; simpl; intros Hx.
  - by rewrite Nat.eqb_refl.
  - apply not_elem_of_cons in Hx as [Hxy Hx].
    destruct (Nat.eqb_spec y x) as [->|_]; [done|]. by rewrite IH.
Qed.

Lemma remove_first_perm (x : nat) (l : list nat) :
  x ∈ l -> x :: PyStr.remove_first x l ≡ₚ l.
Proof.
  induction l as [|y l IH]; simpl; intros Hx; [by apply elem_of_nil in Hx|].
  destruct (Nat.eqb_spec y x) as [->|Hne]; [done|].
  apply elem_of_cons in Hx as [->|Hx]; [done|].
  rewrite Permutation_swap. by rewrite (IH Hx).
Qed.

Section WebSocketProperties.

Variable urljoin : string -> string -> string.
Variable stream : string -> gmap string string -> stream_outcome.

(** X21. [connect] leaves the gauge of active connections where it was and
    the list of accepted sockets with the same members (the very same list
    when the socket was not in it), whether the handshake, the backend stream
    or the send went through or not; once the socket is accepted, no
    exception leaves [connect]. *)
Theorem connect_restores_connections accept_ok send_ok websocket user ws :
  let out := connect urljoin stream accept_ok send_ok websocket user ws in
  ACTIVE_CONNECTIONS out.1 = ACTIVE_CONNECTIONS ws /\
  active_connections out.1 ≡ₚ active_connections ws /\
  (websocket ∉ active_connections ws ->
   active_connections out.1 = active_connections ws) /\
  (accept_ok = true -> out.2 = Ok tt).
Proof.
  simpl. unfold connect. destruct accept_ok; [|done].
  assert (websocket ∈ active_connections ws ++ [websocket]) as Hin
    by (apply elem_of_app; right; apply elem_of_cons; by left).
  assert (forall w r,
    connect_try urljoin stream send_ok websocket user
      {| active_connections := active_connections ws ++ [websocket];
         ACTIVE_CONNECTIONS := ACTIVE_CONNECTIONS ws + 1;
         ws_sent := ws_sent ws; ws_streams := ws_streams ws |} = (w, r) ->
    active_connections w = active_connections ws ++ [websocket] /\
    ACTIVE_CONNECTIONS w = ACTIVE_CONNECTIONS ws + 1) as Htry.
  { intros w r. unfold connect_try; simpl.
    destruct (stream _ _) as [code|]; [|by intros [= <- _]].
    destruct (code =? 101); simpl; [by intros [= <- _]|].
    destruct send_ok; by intros [= <- _]. }
  destruct (connect_try _ _ _ _ _ _) as [w r].
  destruct (Htry w r eq_refl) as [Hact Hgauge]. simpl.
  rewrite Hact, Hgauge, (bool_decide_eq_true_2 _ Hin).
  split; [lia|]. split; [|split].
  - apply (Permutation_cons_inv (a := websocket)).
    rewrite (remove_first_perm _ _ Hin).
    by rewrite Permutation_app_comm.
  - intros Hnew. by apply remove_first_last.
  - intros _. by destruct r.
Qed.

(** X22. An accepted socket makes [connect] open one stream to the
    backend's WebSocket address with the single header [X-User-Tier],
    holding the principal's tier or "anonymous".  When the backend's status
    is not 101 and the send goes through, the client is sent the text
    "WebSocket upgrade failed" and nothing else; when the status is 101,
    nothing is sent to the client. *)
Theorem connect_upgrade send_ok websocket user ws code :
  let hdrs : gmap string string :=
    {[ "X-User-Tier" :=
         match user with Some u => tier u | None => "anonymous" end ]} in
  let out := connect urljoin stream true send_ok websocket user ws in
  stream (backend_ws_url urljoin) hdrs = StreamStatus code ->
  ws_streams out.1 = ws_streams ws ++ [(backend_ws_url urljoin, hdrs)] /\
  (code <> 101 -> send_ok = true ->
   ws_sent out.1 = ws_sent ws ++ [(websocket, "WebSocket upgrade failed")]) /\
  (code = 101 -> ws_sent out.1 = ws_sent ws).
Proof.
  simpl. intros Hstream. unfold connect, connect_try. simpl.
  rewrite Hstream.
  destruct (Z.eqb_spec code 101) as [->|Hne]; simpl.
  - repeat split; done.
  - destruct send_ok; simpl; repeat split; done.
Qed.

(** X23. The backend's WebSocket address is made by replacing every "http"
    of the backend URL by "ws": an [http://] URL becomes a [ws://] URL and an
    [https://] URL a [wss://] URL, and the rest of the URL is kept when
    "http" does not occur in it. *)
Theorem ws_url_scheme rest :
  PyStr.contains "http" rest = false ->
  backend_ws_url_of urljoin ("http://" +:+ rest)
  = urljoin ("ws://" +:+ rest) "/ws" /\
  backend_ws_url_of urljoin ("https://" +:+ rest)
  = urljoin ("wss://" +:+ rest) "/ws".
Proof.
  intros Hrest.
  assert (PyStr.replace_from "http" "ws" 0 rest = rest) as Hkeep.
  { induction rest as [|c rest IH]; [done|].
    cbn [PyStr.contains] in Hrest.
    apply orb_false_iff in Hrest as [Hpre Hrest].
    cbn [PyStr.replace_from]. rewrite Hpre. by rewrite (IH Hrest). }
  unfold backend_ws_url_of, PyStr.replace.
  split; f_equal.
  - change ("http://" +:+ rest)
      with (String "h" (String "t" (String "t" (String "p" (String ":"
              (String "/" (String "/" rest))))))).
    cbn [PyStr.replace_from String.prefix String.length Nat.sub]. simpl.
    by rewrite Hkeep.
  - change ("https://" +:+ rest)
      with (String "h" (String "t" (String "t" (String "p" (String "s"
              (String ":" (String "/" (String "/" rest)))))))).
    cbn [PyStr.replace_from String.prefix String.length Nat.sub]. simpl.
    by rewrite Hkeep.
Qed.

End WebSocketProperties.

(** ** Token issuing *)

Section TokenProperties.

Variable jwt_encode : gmap string json -> string.

(** X24. The token's expiry claim is the clock reading plus the given
    duration; with no duration, and also with a duration of zero, it is the
    clock reading plus 15 minutes.  An [exp] entry of the caller's data is
    replaced, and every other entry is signed as given. *)
Theorem access_token_expiry now data delta :
  create_access_token jwt_encode now data None
  = jwt_encode (<["exp" := JNum (now + 900)]> data) /\
  create_access_token jwt_encode now data (Some 0)
  = create_access_token jwt_encode now data None /\
  (delta <> 0 ->
   create_access_token jwt_encode now data (Some delta)
   = jwt_encode (<["exp" := JNum (now + delta)]> data)) /\
  create_access_token jwt_encode now (delete "exp" data) (Some delta)
  = create_access_token jwt_encode now data (Some delta).
Proof.
  unfold create_access_token. split; [done|]. split; [done|]. split.
  - intros Hne. by rewrite (proj2 (Z.eqb_neq delta 0) Hne).
  - by rewrite insert_delete_eq.
Qed.

(** X25. [login] issues a token only for the user "demo" with the password
    "demo": the token signs the subject "demo" with an expiry 30 minutes
    after the clock reading.  Any other pair is answered with the 401 error
    "Invalid credentials". *)
Theorem login_only_demo now username password :
  (username = "demo" /\ password = "demo" ->
   login jwt_encode now username password
   = Ok {| access_token :=
             jwt_encode (<["exp" := JNum (now + 1800)]> {[ "sub" := JStr "demo" ]});
           token_type := "bearer" |}) /\
  (username <> "demo" \/ password <> "demo" ->
   login jwt_encode now username password
   = Raise (HTTPException 401 "Invalid credentials")).
Proof.
  unfold login. split.
  - intros [-> ->]. reflexivity.
  - intros Hne.
    destruct (String.eqb_spec username "demo") as [->|_]; [|done].
    destruct (String.eqb_spec password "demo") as [->|_]; [|done].
    by destruct Hne.
Qed.

(** X26. A token issued by [login] and presented as a bearer token resolves
    to the principal "demo" with tier "pro", provided the verifier returns
    for the signed claims the claims themselves and the token holds no
    space. *)
Theorem login_then_authenticate
    (jwt_decode : Z -> string -> option (gmap string json))
    now later client tok request :
  login jwt_encode now "demo" "demo" = Ok tok ->
  jwt_decode later
    (jwt_encode (<["exp" := JNum (now + 1800)]> {[ "sub" := JStr "demo" ]}))
  = Some (<["exp" := JNum (now + 1800)]> {[ "sub" := JStr "demo" ]}) ->
  PyStr.has_char " " (access_token tok) = false ->
  get_api_key_from_header request = None ->
  req_headers request !! "authorization"
  = Some ("Bearer " +:+ access_token tok) ->
  authenticate_request jwt_decode later client request
  = Ok (Some (mkUser "demo" (Some "demo@example.com") "pro")).
Proof.
  intros Hlogin Hdec Hspace Hkey Hauth.
  assert (access_token tok
          = jwt_encode (<["exp" := JNum (now + 1800)]>
                          {[ "sub" := JStr "demo" ]})) as Htok
    by (injection Hlogin as <-; reflexivity).
  rewrite <- Htok in Hdec.
  unfold authenticate_request. rewrite Hkey.
  unfold jwt_fallback, jwt_fallback_try. rewrite Hauth.
  destruct (bearer_accepted (access_token tok)) as [-> ->].
  rewrite bearer_unfold. simpl. rewrite (split_no_sep _ _ Hspace). simpl.
  unfold get_current_user, get_current_user_try. rewrite Hdec. simpl.
  rewrite lookup_insert_ne by done. by rewrite lookup_singleton_eq.
Qed.

End TokenProperties.

(** * The further properties at concrete inputs *)

Lemma valid_key_authenticates_witness :
  get_api_key_from_header Sample.with_key_and_token = Some "k3" /\
  kv Sample.store !! ("api_key:" +:+ "k3") = Some (RRecord Sample.k3, None) /\
  expires_at Sample.k3 = Some (Naive 500) /\
  authenticate_request Demo.jwt_decode 500 (Some Sample.store)
                       Sample.with_key_and_token
  = Ok (Some (mkUser "api_key_ops" None "enterprise")).
Proof.
  split; [reflexivity|]. split; [reflexivity|]. split; [reflexivity|].
  apply (valid_key_authenticates Demo.jwt_decode 500 Sample.store
           Sample.with_key_and_token "k3" Sample.k3 None);
    try reflexivity.
  intros e [= <-]. exists 500. split; [reflexivity | lia].
Defined.

Lemma authentication_fails_only_on_stored_expiry_witness :
  authenticate_request Demo.jwt_decode 501 (Some Sample.store)
                       Sample.with_aware_key
  = Raise (OtherException "TypeError") /\
  exists r api_key info d expiry,
    Some Sample.store = Some r /\
    get_api_key_from_header Sample.with_aware_key = Some api_key /\
    kv r !! ("api_key:" +:+ api_key) = Some (RRecord info, d) /\
    enabled info = true /\ expires_at info = Some expiry /\
    match expiry with
    | Naive t => t < 501 /\
                 OtherException "TypeError"
                 = HTTPException 401 "API key expired"
    | Aware _ => OtherException "TypeError" = OtherException "TypeError"
    end.
Proof.
  split; [reflexivity|].
  exact (authentication_fails_only_on_stored_expiry Demo.jwt_decode 501
           (Some Sample.store) Sample.with_aware_key
           (OtherException "TypeError") eq_refl).
Defined.

Lemma api_key_header_before_query_witness :
  req_headers Sample.with_key_in_query !! "x-api-key" = Some EmptyString /\
  get_api_key_from_header Sample.with_key_in_query = Some "k3" /\
  req_headers Sample.with_key_and_token !! "x-api-key" = Some "k3" /\
  get_api_key_from_header Sample.with_key_and_token = Some "k3".
Proof.
  destruct (api_key_header_before_query Sample.with_key_in_query)
    as [_ Hquery].
  destruct (api_key_header_before_query Sample.with_key_and_token)
    as [Hheader _].
  split; [reflexivity|]. split; [exact (Hquery (or_intror eq_refl))|].
  split; [reflexivity|]. apply (Hheader "k3" eq_refl). discriminate.
Defined.

Lemma failed_lookup_falls_through_witness :
  get_api_key_from_header Sample.with_unknown_key = Some "nobody" /\
  redis_lookup 0 ("api_key:" +:+ "nobody") Sample.store = None /\
  validate_api_key 0 (Some Sample.store) "nobody" = None /\
  authenticate_request Demo.jwt_decode 0 (Some Sample.store)
                       Sample.with_unknown_key
  = jwt_fallback Demo.jwt_decode 0 Sample.with_unknown_key.
Proof.
  split; [reflexivity|]. split; [reflexivity|].
  apply (failed_lookup_falls_through Demo.jwt_decode 0 Sample.store
           Sample.with_unknown_key "nobody" eq_refl).
  right; left; reflexivity.
Defined.

Lemma non_bearer_is_anonymous_witness :
  get_api_key_from_header Sample.with_basic_auth = None /\
  req_headers Sample.with_basic_auth !! "authorization"
  = Some "bearer alice.jwt" /\
  Py.startswith "bearer alice.jwt" "Bearer " = false /\
  authenticate_request Demo.jwt_decode 0 (Some Sample.store)
                       Sample.with_basic_auth = Ok None.
Proof.
  split; [reflexivity|]. split; [reflexivity|]. split; [reflexivity|].
  apply (non_bearer_is_anonymous Demo.jwt_decode 0 (Some Sample.store)
           Sample.with_basic_auth eq_refl).
  intros h [= <-]. reflexivity.
Defined.

Lemma bearer_token_is_second_word_witness :
  get_api_key_from_header Sample.with_token_and_more = None /\
  req_headers Sample.with_token_and_more !! "authorization"
  = Some ("Bearer " +:+ ("alice.jwt" +:+ " trailing words")) /\
  PyStr.has_char " " "alice.jwt" = false /\
  Demo.jwt_decode 0 "alice.jwt" = Some Demo.alice_claims /\
  Demo.alice_claims !! "sub" = Some (JStr "alice") /\
  authenticate_request Demo.jwt_decode 0 None Sample.with_token_and_more
  = Ok (Some (mkUser "alice" (Some "alice@example.com") "pro")).
Proof.
  split; [reflexivity|]. split; [reflexivity|]. split; [reflexivity|].
  split; [reflexivity|]. split; [reflexivity|].
  apply (bearer_token_is_second_word Demo.jwt_decode 0 None
           Sample.with_token_and_more "alice.jwt" " trailing words"
           Demo.alice_claims "alice"); try reflexivity.
  right. by exists "trailing words".
Defined.

Lemma anonymous_never_limited_witness :
  call_issued Demo.urljoin_raises Demo.body_raises 5 "status" Demo.plain /\
  redis_client
    (proxy_all_requests Demo.urljoin Demo.urljoin_raises Demo.body_raises
       Demo.backend_up 5 "status" Demo.plain None
       (initial_state (Some Sample.store))).1 = Some Sample.store /\
  (proxy_all_requests Demo.urljoin Demo.urljoin_raises Demo.body_raises
     Demo.backend_up 5 "status" Demo.plain None
     (initial_state (Some Sample.store))).2
  <> Raise (HTTPException 429 "Rate limit exceeded") /\
  backend_calls
    (proxy_all_requests Demo.urljoin Demo.urljoin_raises Demo.body_raises
       Demo.backend_up 5 "status" Demo.plain None
       (initial_state (Some Sample.store))).1
  = [backend_call Demo.urljoin "GET" "status" Demo.plain None].
Proof.
  assert (call_issued Demo.urljoin_raises Demo.body_raises 5 "status"
                      Demo.plain) as Hgo by (split; reflexivity).
  destruct (anonymous_never_limited Demo.urljoin Demo.urljoin_raises
              Demo.body_raises Demo.backend_up 5 "status"
              Demo.plain (initial_state (Some Sample.store)))
    as (Hstore & (Hno & _ & _) & Hcall).
  split; [exact Hgo|]. split; [exact Hstore|].
  split; [exact (Hno _) | exact (Hcall Hgo)].
Defined.

Lemma startup_without_store_never_limits_witness :
  Forall (fun q => call_issued Demo.urljoin_raises Demo.body_raises
                               q.1.1 q.1.2 q.2)
         [(0, "status", Sample.with_key_and_token);
          (1, "blocks", Demo.plain)] /\
  length
    (backend_calls
       (after_serving Demo.jwt_decode Demo.urljoin Demo.urljoin_raises
          Demo.body_raises Demo.backend_up
          [(0, "status", Sample.with_key_and_token);
           (1, "blocks", Demo.plain)]
          (lifespan_startup false Sample.store)))
  = 2%nat /\
  (length
     (backend_calls
        (after_serving Demo.jwt_decode Demo.urljoin Demo.urljoin_raises
           Demo.body_raises Demo.backend_up
           [(0%Z, "status", Demo.plain);
            (1%Z, Sample.broken_path, Demo.plain)]
           (lifespan_startup false Sample.store)))
   <= 2)%nat /\
  length
    (backend_calls
       (after_serving Demo.jwt_decode Demo.urljoin Demo.urljoin_raises
          Demo.body_raises Demo.backend_up
          [(0, "status", Demo.plain); (1, Sample.broken_path, Demo.plain)]
          (lifespan_startup false Sample.store)))
  = 1%nat.
Proof.
  assert (Forall (fun q => call_issued Demo.urljoin_raises Demo.body_raises
                                       q.1.1 q.1.2 q.2)
                 [(0, "status", Sample.with_key_and_token);
                  (1, "blocks", Demo.plain)]) as Hall
    by (repeat constructor).
  destruct (startup_without_store_never_limits Demo.jwt_decode Demo.urljoin
              Demo.urljoin_raises Demo.body_raises Demo.backend_up
              Sample.store
              [(0, "status", Sample.with_key_and_token);
               (1, "blocks", Demo.plain)]) as (_ & _ & _ & Heq).
  destruct (startup_without_store_never_limits Demo.jwt_decode Demo.urljoin
              Demo.urljoin_raises Demo.body_raises Demo.backend_up
              Sample.store
              [(0, "status", Demo.plain); (1, Sample.broken_path, Demo.plain)])
    as (_ & _ & Hle & _).
  split; [exact Hall|]. split; [exact (Heq Hall)|].
  split; [exact Hle | reflexivity].
Defined.

Lemma store_outage_is_internal_error_witness :
  redis_client (initial_state (Some Sample.store_down)) = Some Sample.store_down /\
  reachable Sample.store_down = false /\
  (proxy_all_requests Demo.urljoin Demo.urljoin_raises Demo.body_raises
     Demo.backend_up 5 "status" Demo.plain
     (Some Demo.alice) (initial_state (Some Sample.store_down))).2
  = Raise (HTTPException 500 "Internal server error") /\
  backend_calls
    (proxy_all_requests Demo.urljoin Demo.urljoin_raises Demo.body_raises
       Demo.backend_up 5 "status" Demo.plain
       (Some Demo.alice) (initial_state (Some Sample.store_down))).1 = [] /\
  counted "GET" "status" "500"
    (proxy_all_requests Demo.urljoin Demo.urljoin_raises Demo.body_raises
       Demo.backend_up 5 "status" Demo.plain
       (Some Demo.alice) (initial_state (Some Sample.store_down))).1 = 1%nat.
Proof.
  split; [reflexivity|]. split; [reflexivity|].
  exact (store_outage_is_internal_error Demo.urljoin Demo.urljoin_raises
           Demo.body_raises Demo.backend_up 5
           "status" Demo.plain Demo.alice
           (initial_state (Some Sample.store_down)) Sample.store_down
           eq_refl eq_refl).
Defined.

Lemma rejected_request_is_counted_witness :
  counting Demo.alice 10 60 (initial_state (Some Sample.store)) /\
  limit_of (tier Demo.alice) = 10 /\
  (proxy_all_requests Demo.urljoin Demo.urljoin_raises Demo.body_raises
     Demo.backend_up 5 "status" Demo.plain
     (Some Demo.alice) (initial_state (Some Sample.store))).2
  = Raise (HTTPException 429 "Rate limit exceeded") /\
  counting Demo.alice 11 60
    (proxy_all_requests Demo.urljoin Demo.urljoin_raises Demo.body_raises
       Demo.backend_up 5 "status" Demo.plain
       (Some Demo.alice) (initial_state (Some Sample.store))).1 /\
  counted "GET" "status" "429"
    (proxy_all_requests Demo.urljoin Demo.urljoin_raises Demo.body_raises
       Demo.backend_up 5 "status" Demo.plain
       (Some Demo.alice) (initial_state (Some Sample.store))).1 = 1%nat.
Proof.
  assert (counting Demo.alice 10 60 (initial_state (Some Sample.store)))
    as Hcount.
  { exists Sample.store. split; [reflexivity|]. split; reflexivity. }
  assert (limit_of (tier Demo.alice) <= 10 < int64_max) as Hlim
    by (split; [reflexivity | reflexivity]).
  destruct (rejected_request_is_counted Demo.urljoin Demo.urljoin_raises
              Demo.body_raises Demo.backend_up 5
              "status" Demo.plain Demo.alice
              (initial_state (Some Sample.store)) 10 60 Hcount Hlim
              ltac:(lia)) as (Hout & Hnext & Hmetric & _ & _).
  split; [exact Hcount|]. split; [reflexivity|].
  split; [exact Hout|]. split; [exact Hnext | exact Hmetric].
Defined.

Lemma answered_request_is_counted_witness :
  check_rate_limit 5 "status" Demo.plain None (initial_state None)
  = (initial_state None, Ok tt) /\
  call_issued Demo.urljoin_raises Demo.body_raises 5 "status" Demo.plain /\
  Sample.backend_teapot 5
    (backend_call Demo.urljoin "GET" "status" Demo.plain None)
  = Responded Sample.teapot /\
  counted "GET" "status" "418"
    (proxy_all_requests Demo.urljoin Demo.urljoin_raises Demo.body_raises
       Sample.backend_teapot 5 "status"
       Demo.plain None (initial_state None)).1 = 1%nat /\
  counted "GET" "status" "200"
    (proxy_all_requests Demo.urljoin Demo.urljoin_raises Demo.body_raises
       Sample.backend_teapot 5 "status"
       Demo.plain None (initial_state None)).1 = 0%nat /\
  REQUEST_LATENCY
    (proxy_all_requests Demo.urljoin Demo.urljoin_raises Demo.body_raises
       Sample.backend_teapot 5 "status"
       Demo.plain None (initial_state None)).1 = [("GET", "status")].
Proof.
  assert (call_issued Demo.urljoin_raises Demo.body_raises 5 "status"
                      Demo.plain) as Hgo by (split; reflexivity).
  destruct (answered_request_is_counted Demo.urljoin Demo.urljoin_raises
              Demo.body_raises Sample.backend_teapot 5
              "status" Demo.plain None (initial_state None)
              (initial_state None) Sample.teapot eq_refl Hgo eq_refl)
    as (_ & Hone & Hother & Hlat).
  split; [reflexivity|]. split; [exact Hgo|]. split; [reflexivity|].
  split; [exact Hone|].
  split; [apply (Hother "GET" "status" "200"); discriminate | exact Hlat].
Defined.

Lemma unknown_tier_has_free_limit_witness :
  "Enterprise" <> "pro" /\ "Enterprise" <> "enterprise" /\
  limit_of "Enterprise" = 10.
Proof.
  split; [discriminate|]. split; [discriminate|].
  apply (proj1 (unknown_tier_has_free_limit "Enterprise")); discriminate.
Defined.

Lemma health_verdicts_witness :
  Demo.probe 120 = ProbeStatus 200 /\
  check_backend_health Demo.probe 120 = "healthy" /\
  Demo.probe 0 = ProbeException /\
  check_backend_health Demo.probe 0 = "unreachable".
Proof.
  destruct (health_verdicts Demo.probe 120) as ([_ Hup] & _ & _).
  destruct (health_verdicts Demo.probe 0) as (_ & [_ Hdown] & _).
  split; [reflexivity|]. split; [exact (Hup eq_refl)|].
  split; [reflexivity|]. exact (Hdown eq_refl).
Defined.

Lemma backend_status_values_witness :
  backend_status
    (update_backend_status Demo.urljoin Demo.probe [] (initial_state None))
  = "unknown" /\
  backend_status
    (update_backend_status Demo.urljoin Demo.probe [0; 30] (initial_state None))
  <> "unknown".
Proof.
  destruct (backend_status_values Demo.urljoin Demo.probe [] None)
    as [Hnone _].
  destruct (backend_status_values Demo.urljoin Demo.probe [0; 30] None)
    as [_ Hsome].
  split; [exact (Hnone eq_refl)|].
  exact (proj2 (Hsome ltac:(discriminate))).
Defined.

Lemma connect_restores_connections_witness :
  (9%nat ∉ active_connections Sample.no_sockets) /\
  ACTIVE_CONNECTIONS
    (connect Demo.urljoin Sample.stream_refused true false 9 None
             Sample.no_sockets).1 = 2 /\
  active_connections
    (connect Demo.urljoin Sample.stream_refused true false 9 None
             Sample.no_sockets).1 = [4%nat; 7%nat] /\
  (connect Demo.urljoin Sample.stream_refused true false 9 None
           Sample.no_sockets).2 = Ok tt.
Proof.
  assert (9%nat ∉ active_connections Sample.no_sockets) as Hnew.
  { intros Hin. repeat (apply elem_of_cons in Hin as [Hin|Hin];
                        [discriminate Hin|]).
    by apply elem_of_nil in Hin. }
  destruct (connect_restores_connections Demo.urljoin Sample.stream_refused
              true false 9 None Sample.no_sockets)
    as (Hgauge & _ & Hlist & Hok).
  split; [exact Hnew|]. split; [exact Hgauge|].
  split; [exact (Hlist Hnew) | exact (Hok eq_refl)].
Defined.

Lemma connect_upgrade_witness :
  Sample.stream_refused (backend_ws_url Demo.urljoin)
    {[ "X-User-Tier" := "anonymous" ]} = StreamStatus 404 /\
  ws_sent (connect Demo.urljoin Sample.stream_refused true true 9 None
                   Sample.no_sockets).1
  = [(9%nat, "WebSocket upgrade failed")] /\
  Sample.stream_upgraded (backend_ws_url Demo.urljoin)
    {[ "X-User-Tier" := "free" ]} = StreamStatus 101 /\
  ws_sent (connect Demo.urljoin Sample.stream_upgraded true true 9
                   (Some Demo.alice) Sample.no_sockets).1 = [] /\
  ws_streams (connect Demo.urljoin Sample.stream_upgraded true true 9
                      (Some Demo.alice) Sample.no_sockets).1
  = [(backend_ws_url Demo.urljoin, {[ "X-User-Tier" := "free" ]})].
Proof.
  destruct (connect_upgrade Demo.urljoin Sample.stream_refused true 9 None
              Sample.no_sockets 404 eq_refl) as (_ & Hsent & _).
  destruct (connect_upgrade Demo.urljoin Sample.stream_upgraded true 9
              (Some Demo.alice) Sample.no_sockets 101 eq_refl)
    as (Hstream & _ & Hquiet).
  split; [reflexivity|].
  split; [apply Hsent; [discriminate | reflexivity]|].
  split; [reflexivity|].
  split; [exact (Hquiet eq_refl) | exact Hstream].
Defined.

Lemma ws_url_scheme_witness :
  PyStr.contains "http" "localhost:8080" = false /\
  backend_ws_url Demo.urljoin = Demo.urljoin "ws://localhost:8080" "/ws" /\
  backend_ws_url_of Demo.urljoin "https://localhost:8080"
  = Demo.urljoin "wss://localhost:8080" "/ws".
Proof.
  destruct (ws_url_scheme Demo.urljoin "localhost:8080" eq_refl)
    as [Hplain Hsecure].
  split; [reflexivity|]. split; [exact Hplain | exact Hsecure].
Defined.

Lemma access_token_expiry_witness :
  create_access_token Sample.jwt_encode 100 Sample.demo_claims (Some 0)
  = create_access_token Sample.jwt_encode 100 Sample.demo_claims None /\
  (-5) <> 0 /\
  create_access_token Sample.jwt_encode 100 Sample.demo_claims (Some (-5))
  = Sample.jwt_encode (<["exp" := JNum (100 + -5)]> Sample.demo_claims).
Proof.
  destruct (access_token_expiry Sample.jwt_encode 100 Sample.demo_claims (-5))
    as (_ & Hzero & Hdelta & _).
  split; [exact Hzero|]. split; [discriminate|].
  apply Hdelta. discriminate.
Defined.

Lemma login_only_demo_witness :
  login Sample.jwt_encode 0 "demo" "demo"
  = Ok {| access_token := "demo.jwt"; token_type := "bearer" |} /\
  "Demo" <> "demo" /\
  login Sample.jwt_encode 0 "Demo" "demo"
  = Raise (HTTPException 401 "Invalid credentials").
Proof.
  destruct (login_only_demo Sample.jwt_encode 0 "demo" "demo") as [Hok _].
  destruct (login_only_demo Sample.jwt_encode 0 "Demo" "demo") as [_ Hbad].
  split; [exact (Hok (conj eq_refl eq_refl))|].
  split; [discriminate|]. apply Hbad. left. discriminate.
Defined.

Lemma login_then_authenticate_witness :
  login Sample.jwt_encode 0 "demo" "demo"
  = Ok {| access_token := "demo.jwt"; token_type := "bearer" |} /\
  Sample.jwt_decode 60 (Sample.jwt_encode Sample.demo_claims)
  = Some Sample.demo_claims /\
  PyStr.has_char " " "demo.jwt" = false /\
  authenticate_request Sample.jwt_decode 60 None Sample.with_demo_token
  = Ok (Some (mkUser "demo" (Some "demo@example.com") "pro")).
Proof.
  split; [reflexivity|]. split; [reflexivity|]. split; [reflexivity|].
  exact (login_then_authenticate Sample.jwt_encode Sample.jwt_decode 0 60 None
           {| access_token := "demo.jwt"; token_type := "bearer" |}
           Sample.with_demo_token eq_refl eq_refl eq_refl eq_refl eq_refl).
Defined.


Lemma key_expiry_decides_witness :
  expires_at Sample.k3 = Some (Naive 500) /\
  authenticate_request Demo.jwt_decode 501 (Some Sample.store)
                       Sample.with_key_and_token
  = Raise (HTTPException 401 "API key expired") /\
  authenticate_request Demo.jwt_decode 500 (Some Sample.store)
                       Sample.with_key_and_token
  = Ok (Some (mkUser "api_key_ops" None "enterprise")) /\
  expires_at Sample.k4 = Some (Aware 900) /\
  authenticate_request Demo.jwt_decode 500 (Some Sample.store)
                       Sample.with_aware_key
  = Raise (OtherException "TypeError").
Proof.
  destruct (key_expiry_decides Demo.jwt_decode 501 Sample.store
              Sample.with_key_and_token "k3" Sample.k3 None (Naive 500)
              eq_refl eq_refl eq_refl eq_refl eq_refl eq_refl eq_refl)
    as [[_ Hlate] _].
  destruct (key_expiry_decides Demo.jwt_decode 500 Sample.store
              Sample.with_key_and_token "k3" Sample.k3 None (Naive 500)
              eq_refl eq_refl eq_refl eq_refl eq_refl eq_refl eq_refl)
    as [_ Hedge].
  pose proof (key_expiry_decides Demo.jwt_decode 500 Sample.store
                Sample.with_aware_key "k4" Sample.k4 None (Aware 900)
                eq_refl eq_refl eq_refl eq_refl eq_refl eq_refl eq_refl)
    as Haware.
  split; [reflexivity|]. split; [apply Hlate; lia|].
  split; [exact (Hedge eq_refl)|]. split; [reflexivity | exact Haware].
Defined.

Lemma get_current_user_outcomes_witness :
  Demo.jwt_decode 0 "forged.jwt" = None /\
  get_current_user Demo.jwt_decode 0 "forged.jwt" = Raise credentials_exception.
Proof.
  split; [reflexivity|].
  exact (proj2 (get_current_user_outcomes Demo.jwt_decode 0 "forged.jwt")
               eq_refl).
Defined.
